(** * notes-mcp: the MCP tool layer of [remote_mcp/server.py]

    A shallow embedding of the tools of [src/remote_mcp/server.py] (task and
    note stores, [wait_for_updates], [sync_changes]) together with the part of
    the event bus they call into.  The module [remote_mcp/event_manager.py]
    is imported by [server.py] but is not part of the sources at hand; the
    definitions that stand for it are marked "Modelled from the spec".

    Conventions.
    - Python [int] is [Z]; [str] is [string] (ASCII; [str.lower] is modelled
      on ASCII letters); [None]-able arguments are [option].
    - A Python [dict] is an insertion-ordered association list with unique
      keys ([dict_set] overwrites in place, appends a new key at the end).
    - Module globals ([tasks_db], [task_counter], [notes_db], [note_counter],
      [event_manager]) are the fields of [State]; every tool is a function
      from the state before the call to an [Outcome].
    - [datetime.now().isoformat()] is an input of the tool that reads it.
    - [logger.info] calls are not modelled. *)

From Stdlib Require Import ZArith List String Ascii Bool Lia.
From Stdlib Require Import DecimalString DecimalZ.
Import ListNotations.
Local Open Scope string_scope.
Local Open Scope Z_scope.

Set Implicit Arguments.

(** ** Python values *)

(** The JSON-like values the tools return. *)
#[local] Unset Elimination Schemes.
Inductive value : Type :=
| VNone : value
| VBool : bool -> value
| VInt : Z -> value
| VStr : string -> value
| VList : list value -> value
| VDict : list (string * value) -> value.
#[local] Set Elimination Schemes.

(** ** Python dictionaries *)

Module Dict.
Section Dict.
Variable V : Type.

Definition t : Type := list (string * V).

Definition empty : t := [].

(** [d.get(k)] *)
Fixpoint get (k : string) (d : t) : option V :=
  match d with
  | [] => None
  | (k', v) :: d' => if String.eqb k k' then Some v else get k d'
  end.

(** [k in d] *)
Definition mem (k : string) (d : t) : bool :=
  match get k d with Some _ => true | None => false end.

(** [d[k] = v] *)
Fixpoint set (k : string) (v : V) (d : t) : t :=
  match d with
  | [] => [(k, v)]
  | (k', v') :: d' =>
      if String.eqb k k' then (k, v) :: d' else (k', v') :: set k v d'
  end.

(** [del d[k]]; the tools call it only after checking [k in d]. *)
Fixpoint del (k : string) (d : t) : t :=
  match d with
  | [] => []
  | (k', v') :: d' =>
      if String.eqb k k' then d' else (k', v') :: del k d'
  end.

(** [list(d.keys())], [list(d.values())] *)
Definition keys (d : t) : list string := map fst d.
Definition values (d : t) : list V := map snd d.
End Dict.
End Dict.

(** Keys of a result when it is a dict. *)
Definition has_key (k : string) (r : value) : bool :=
  match r with
  | VDict d => Dict.mem k d
  | _ => false
  end.

Definition field (k : string) (r : value) : option value :=
  match r with
  | VDict d => Dict.get k d
  | _ => None
  end.

(** ** Python string helpers *)

(** [str.lower] on ASCII letters.  A [string] here is a sequence of 8-bit
    characters; it stands for the Python [str] of the same characters when
    all of them are ASCII ([ascii_only] below), and the properties that
    depend on what [lower], [prefix_n], [Text.len] or [Text.is_space] do to
    other characters assume just that. *)
Definition lower_ascii (c : ascii) : ascii :=
  let n := nat_of_ascii c in
  if andb (Nat.leb 65 n) (Nat.leb n 90) then ascii_of_nat (n + 32) else c.

Fixpoint lower (s : string) : string :=
  match s with
  | EmptyString => EmptyString
  | String c s' => String (lower_ascii c) (lower s')
  end.

(** [s.replace(" ", "-")] *)
Fixpoint replace_space (s : string) : string :=
  match s with
  | EmptyString => EmptyString
  | String c s' =>
      String (if Ascii.eqb c " "%char then "-"%char else c) (replace_space s')
  end.

(** [s[:n]], character by character. *)
Definition prefix_n (n : nat) (s : string) : string := String.substring 0 n s.

(** [str(n)] for an int. *)
Definition str_of_int (n : Z) : string := NilZero.string_of_int (Z.to_int n).

(** Truthiness of an optional string argument ([if s:]). *)
Definition truthy (s : option string) : bool :=
  match s with
  | Some s' => negb (String.eqb s' "")
  | None => false
  end.

(** ** Event vocabulary *)

(** Modelled from the spec: the enums [EventType] and [EventPriority] of
    [event_manager.py], which [server.py] imports.  The spec gives the event
    types [CREATE | UPDATE | DELETE | LIST] and the priority ordering
    [LOW(0) < NORMAL(1) < HIGH(2) < CRITICAL(3)]. *)
Inductive EventType : Type := CREATE | UPDATE | DELETE | LIST.

Inductive EventPriority : Type := LOW | NORMAL | HIGH | CRITICAL.

Definition priority_rank (p : EventPriority) : Z :=
  match p with
  | LOW => 0
  | NORMAL => 1
  | HIGH => 2
  | CRITICAL => 3
  end.

(** A priority as [server.py] writes it: [EventPriority.X if EventPriority
    else n] is an enum member when the import succeeded and a bare [int]
    otherwise; the default of [priority_map.get(priority_min, 1)] is always a
    bare [int]. *)
Inductive Priority : Type :=
| PEnum : EventPriority -> Priority
| PInt : Z -> Priority.

Definition priority_num (p : Priority) : Z :=
  match p with
  | PEnum e => priority_rank e
  | PInt n => n
  end.

(** Modelled from the spec: the event record of [event_manager.py] (section 3,
    "Event").  The wall-clock timestamp is informational only and is left
    out.  [ev_type] is what the decorator was given, which [server.py] writes
    as [EventType.X if EventType else None]. *)
Record Event : Type := mkEvent {
  ev_id : Z;
  ev_type : option EventType;
  ev_target : string;
  ev_priority : Priority;
  ev_payload : value;
  ev_ui_hint : option string
}.

(** The arguments [server.py] gives the [EventFilter] constructor. *)
Record EventFilter : Type := mkEventFilter {
  ef_targets : option (list string);
  ef_priority_min : Priority;
  ef_since : option string
}.

(** ** The event bus *)

(** Modelled from the spec: the filter of section 3 once its cursor is
    resolved to an id ([targets] empty or absent means all). *)
Record Filter : Type := mkFilter {
  f_targets : list string;
  f_priority_min : Z;
  f_since : Z
}.

(** Modelled from the spec: a registered long-poll waiter (section 3,
    "Waiter"; registration time and deadline are real time and left out). *)
Record Waiter : Type := mkWaiter {
  w_connection_id : string;
  w_filter : Filter
}.

(** Modelled from the spec: a streaming subscriber with its bounded outbound
    queue (section 3, "Subscriber"). *)
Record Subscriber : Type := mkSubscriber {
  sub_handle : string;
  sub_filter : option Filter;
  sub_queue : list Event
}.

(** Modelled from the spec: the state of the [event_manager] object, the
    event log (oldest first) with the last id assigned and the two
    registries the bus owns (sections 2 and 5). *)
Record Bus : Type := mkBus {
  log : list Event;
  last_id : Z;
  waiters : list Waiter;
  subscribers : list Subscriber
}.

Definition string_in (s : string) (l : list string) : bool :=
  existsb (String.eqb s) l.

Module EventBus.
Section EventBus.

(** Ring-buffer capacity [C] and the bound of a subscriber's queue; the spec
    leaves both to the implementer. *)
Variable capacity : nat.
Variable queue_bound : nat.

(** How the bus reads a cursor string such as ["evt_456"]. *)
Variable parse_cursor : string -> Z.

(** Modelled from the spec: [matches(event, filter)] of section 4.2. *)
Definition matches (e : Event) (f : Filter) : bool :=
  (match f_targets f with
   | [] => true
   | ts => string_in (ev_target e) ts
   end)
  && (f_priority_min f <=? priority_num (ev_priority e))
  && (f_since f <? ev_id e).

(** Modelled from the spec: [events_since(cursor)] of section 4.1, all
    resident events with [id > cursor]. *)
Definition events_since (cursor : Z) (b : Bus) : list Event :=
  filter (fun e => cursor <? ev_id e) (log b).

(** Modelled from the spec: [latest_id()], [0] before the first append. *)
Definition latest_id (b : Bus) : Z := last_id b.

(** Oldest entries are dropped once capacity is exceeded. *)
Definition evict (l : list Event) : list Event :=
  skipn (List.length l - capacity)%nat l.

(** Modelled from the spec: [append(draft)] of section 4.1: assign the next
    id, store in the ring buffer, return the finalized event. *)
Definition append (ty : option EventType) (target : string)
    (priority : Priority) (payload : value) (ui_hint : option string)
    (b : Bus) : Event * Bus :=
  let e := mkEvent (last_id b + 1) ty target priority payload ui_hint in
  (e, mkBus (evict (log b ++ [e])) (ev_id e) (waiters b) (subscribers b)).

(** A subscriber receives the event unless its queue is full, in which case
    it is dropped (section 4.4, backpressure). *)
Definition deliver (e : Event) (s : Subscriber) : option Subscriber :=
  let wanted :=
    match sub_filter s with
    | None => true
    | Some f => matches e f
    end in
  if negb wanted then Some s
  else if Nat.leb queue_bound (List.length (sub_queue s)) then None
  else Some (mkSubscriber (sub_handle s) (sub_filter s) (sub_queue s ++ [e])).

Fixpoint deliver_all (e : Event) (ss : list Subscriber) : list Subscriber :=
  match ss with
  | [] => []
  | s :: ss' =>
      match deliver e s with
      | Some s' => s' :: deliver_all e ss'
      | None => deliver_all e ss'
      end
  end.

(** Modelled from the spec: the notification that follows an append
    (section 2, "Flow"): every waiter whose filter matches is resolved and
    deregistered, every subscriber is served. *)
Definition notify (e : Event) (b : Bus) : Bus :=
  mkBus (log b) (last_id b)
        (filter (fun w => negb (matches e (w_filter w))) (waiters b))
        (deliver_all e (subscribers b)).

(** Modelled from the spec: [emit(draft) -> Event] of section 6. *)
Definition emit (ty : option EventType) (target : string)
    (priority : Priority) (payload : value) (ui_hint : option string)
    (b : Bus) : Event * Bus :=
  let '(e, b1) := append ty target priority payload ui_hint b in
  (e, notify e b1).

Definition type_name (ty : option EventType) : value :=
  match ty with
  | Some CREATE => VStr "CREATE"
  | Some UPDATE => VStr "UPDATE"
  | Some DELETE => VStr "DELETE"
  | Some LIST => VStr "LIST"
  | None => VNone
  end.

Definition ui_hint_value (h : option string) : value :=
  match h with
  | Some s => VStr s
  | None => VNone
  end.

(** An event as it appears in a result ([{id:1,type:"CREATE",target:"note",
    ...}] in the spec's scenario A). *)
Definition event_value (e : Event) : value :=
  VDict [("id", VInt (ev_id e));
         ("type", type_name (ev_type e));
         ("target", VStr (ev_target e));
         ("priority", VInt (priority_num (ev_priority e)));
         ("payload", ev_payload e);
         ("ui_hint", ui_hint_value (ev_ui_hint e))].

Definition cursor_of (last_sync_id : option string) : Z :=
  match last_sync_id with
  | Some s => parse_cursor s
  | None => 0
  end.

Definition sync_id_value (last_sync_id : option string) : value :=
  match last_sync_id with
  | Some s => VStr s
  | None => VNone
  end.

(** Modelled from the spec: [sync_changes] of the bus (section 4.5).
    [events] is [events_since(last_sync_id)] with the cursor defaulting to
    [0]; [next_sync_id] is the id of the last returned event, or
    [last_sync_id] unchanged if none is returned; [state] is present only if
    [include_full_state] is set.  [server.py] passes no snapshot provider, so
    the state the bus builds is [snapshot]. *)
Definition sync_changes (snapshot : value) (connection_id : string)
    (last_sync_id : option string) (include_full_state : bool)
    (b : Bus) : list (string * value) :=
  let evs := events_since (cursor_of last_sync_id) b in
  let next :=
    match rev evs with
    | e :: _ => VInt (ev_id e)
    | [] => sync_id_value last_sync_id
    end in
  [("events", VList (map event_value evs)); ("next_sync_id", next)]
  ++ (if include_full_state then [("state", snapshot)] else []).

End EventBus.
End EventBus.

(** ** The stores of [server.py] *)

(** A task as [task_create] builds it. *)
Record Task : Type := mkTask {
  task_id_of : string;
  task_title : string;
  task_description : string;
  task_priority : string;
  task_status : string;
  task_created_at : string;
  task_updated_at : string
}.

(** A note as [write_note] builds it. *)
Record Note : Type := mkNote {
  note_id_of : string;
  note_title : string;
  note_summary : string;
  note_tags : list string;
  note_content : string;
  note_created_at : string;
  note_updated_at : string
}.

Definition strs (l : list string) : value := VList (map VStr l).

Definition task_value (t : Task) : value :=
  VDict [("id", VStr (task_id_of t));
         ("title", VStr (task_title t));
         ("description", VStr (task_description t));
         ("priority", VStr (task_priority t));
         ("status", VStr (task_status t));
         ("created_at", VStr (task_created_at t));
         ("updated_at", VStr (task_updated_at t))].

Definition note_value (n : Note) : value :=
  VDict [("id", VStr (note_id_of n));
         ("title", VStr (note_title n));
         ("summary", VStr (note_summary n));
         ("tags", strs (note_tags n));
         ("content", VStr (note_content n));
         ("created_at", VStr (note_created_at n));
         ("updated_at", VStr (note_updated_at n))].

(** The module globals.  [event_manager] is [None] when the import of the
    event system failed ([except ImportError]). *)
Record State : Type := mkState {
  tasks_db : Dict.t Task;
  task_counter : Z;
  notes_db : Dict.t Note;
  note_counter : Z;
  event_manager : option Bus
}.

Definition with_tasks (st : State) (db : Dict.t Task) (c : Z) : State :=
  mkState db c (notes_db st) (note_counter st) (event_manager st).

Definition with_notes (st : State) (db : Dict.t Note) (c : Z) : State :=
  mkState (tasks_db st) (task_counter st) db c (event_manager st).

Definition with_bus (st : State) (b : Bus) : State :=
  mkState (tasks_db st) (task_counter st) (notes_db st) (note_counter st)
          (Some b).

(** What a tool call produces: the value returned to the caller, the globals
    after the call, and the events emitted during it. *)
Record Outcome : Type := mkOutcome {
  out_result : value;
  out_state : State;
  out_emitted : list Event
}.

(** The body of a tool before decoration. *)
Definition Body : Type := State -> value * State.

Definition Tool : Type := State -> Outcome.

(** An undecorated tool. *)
Definition plain (func : Body) : Tool :=
  fun st => let '(r, st') := func st in mkOutcome r st' [].

(** The initial globals of the module. *)
Definition initial (em : option Bus) : State :=
  mkState (Dict.empty Task) 0 (Dict.empty Note) 0 em.

Definition started_bus : Bus := mkBus [] 0 [] [].

(** ** The tools of [server.py] *)

Module Server.
Section Server.

Variable capacity : nat.
Variable queue_bound : nat.
Variable parse_cursor : string -> Z.

(** The priority the imported decorator uses when [emit_event] is called
    without [priority=] (as for [list_notes]). *)
Variable default_priority : Priority.

(** The [state] the bus itself builds for [include_full_state]; [server.py]
    overwrites it. *)
Variable bus_snapshot : Bus -> value.

(** *** The import block (lines 20-34) *)

(** Whether [from .event_manager import ...] succeeded: all five names are
    bound together, or all fall back together. *)
Definition imported (st : State) : bool :=
  match event_manager st with
  | Some _ => true
  | None => false
  end.

(** [EventType.X if EventType else None] *)
Definition EventType_or_None (st : State) (ty : EventType)
    : option EventType :=
  if imported st then Some ty else None.

(** [EventPriority.X if EventPriority else n] *)
Definition EventPriority_or (st : State) (p : EventPriority) (n : Z)
    : Priority :=
  if imported st then PEnum p else PInt n.

(** Modelled from the spec: whether an operation succeeded, for the emit
    adapter of section 4.6 ("no event is emitted for a failed operation").
    The tools of [server.py] report failure by returning [{"error": ...}]. *)
Definition succeeded (r : value) : bool := negb (has_key "error" r).

(** Modelled from the spec: the decorator [emit_event] of
    [event_manager.py], the emit adapter of section 4.6.  After the wrapped
    operation returns successfully it derives the event from the decorator's
    arguments and the operation's outcome (the payload), appends it to the
    log and notifies waiters and subscribers; the operation's result is
    returned unchanged. *)
Definition emit_event_imported (ty : option EventType) (target : string)
    (ui_hint : option string) (priority : option Priority)
    (func : Body) : Tool :=
  fun st =>
    let '(r, st1) := func st in
    if succeeded r then
      match event_manager st1 with
      | Some b =>
          let prio :=
            match priority with
            | Some p => p
            | None => default_priority
            end in
          let '(e, b') :=
            EventBus.emit capacity queue_bound ty target prio r ui_hint b in
          mkOutcome r (with_bus st1 b') [e]
      | None => mkOutcome r st1 []
      end
    else mkOutcome r st1 [].

(** [emit_event] as the module binds it: the imported decorator, or the
    fallback [lambda *args, **kwargs: lambda func: func]. *)
Definition emit_event (st : State) (ty : option EventType) (target : string)
    (ui_hint : option string) (priority : option Priority)
    (func : Body) : Tool :=
  if imported st
  then emit_event_imported ty target ui_hint priority func
  else plain func.

(** *** Long polling (lines 135-242) *)

(** The call [wait_for_updates] makes into the event manager. *)
Record WaitCall : Type := mkWaitCall {
  wc_connection_id : string;
  wc_targets : option (list string);
  wc_timeout : Z;
  wc_filters : option EventFilter;
  wc_since : option string
}.

(** [wait_for_updates] either returns a result of its own, or returns
    whatever [event_manager.wait_for_updates] returns for the call it
    forwards. *)
Inductive WaitResult : Type :=
| Returned : value -> WaitResult
| Forwarded : WaitCall -> WaitResult.

Definition priority_map (st : State) : Dict.t Priority :=
  [("low", EventPriority_or st LOW 0);
   ("normal", EventPriority_or st NORMAL 1);
   ("high", EventPriority_or st HIGH 2);
   ("critical", EventPriority_or st CRITICAL 3)].

(** [priority_map.get(priority_min, 1)] *)
Definition priority_of_label (st : State) (priority_min : string)
    : Priority :=
  match Dict.get priority_min (priority_map st) with
  | Some p => p
  | None => PInt 1
  end.

Definition wait_for_updates (targets : option (list string)) (timeout : Z)
    (since : option string) (priority_min : string) (st : State)
    : WaitResult :=
  match event_manager st with
  | None =>
      Returned (VDict [("status", VStr "error");
                       ("error", VStr "Event system not available");
                       ("events", VList []);
                       ("summary", VDict [])])
  | Some _ =>
      let priority := priority_of_label st priority_min in
      let filter_obj :=
        if imported st
        then Some (mkEventFilter targets priority since)
        else None in
      Forwarded (mkWaitCall "claude" targets (Z.min timeout 300)
                            filter_obj since)
  end.

Definition sync_changes (last_sync_id : option string)
    (include_full_state : bool) : Tool :=
  fun st =>
    match event_manager st with
    | None =>
        mkOutcome
          (VDict [("events", VList []);
                  ("next_sync_id", EventBus.sync_id_value last_sync_id);
                  ("state", VDict [])])
          st []
    | Some b =>
        let result :=
          EventBus.sync_changes parse_cursor (bus_snapshot b) "claude"
                                last_sync_id include_full_state b in
        let result :=
          if include_full_state
          then Dict.set "state"
                 (VDict [("notes",
                          VList (map note_value (Dict.values (notes_db st))));
                         ("tasks",
                          VList (map task_value (Dict.values (tasks_db st))))])
                 result
          else result in
        mkOutcome (VDict result) st []
    end.

(** *** Task management (lines 248-346) *)

Definition task_create (title description priority : string)
    (now1 now2 : string) : Tool :=
  plain (fun st =>
    let counter := task_counter st + 1 in
    let task_id := "task_" ++ str_of_int counter in
    let task := mkTask task_id title description priority "pending"
                       now1 now2 in
    (task_value task,
     with_tasks st (Dict.set task_id task (tasks_db st)) counter)).

Definition task_list (status : option string) : Tool :=
  plain (fun st =>
    let tasks := Dict.values (tasks_db st) in
    let tasks :=
      match status with
      | Some s =>
          if truthy status
          then filter (fun t => String.eqb (task_status t) s) tasks
          else tasks
      | None => tasks
      end in
    (VList (map task_value tasks), st)).

Definition or_keep (new : option string) (old : string) : string :=
  match new with
  | Some s => if truthy new then s else old
  | None => old
  end.

Definition task_update (task_id : string)
    (status title description priority : option string)
    (now : string) : Tool :=
  plain (fun st =>
    match Dict.get task_id (tasks_db st) with
    | None =>
        (VDict [("error", VStr ("Task " ++ task_id ++ " not found"))], st)
    | Some task =>
        let task :=
          mkTask (task_id_of task)
                 (or_keep title (task_title task))
                 (or_keep description (task_description task))
                 (or_keep priority (task_priority task))
                 (or_keep status (task_status task))
                 (task_created_at task)
                 now in
        (task_value task,
         with_tasks st (Dict.set task_id task (tasks_db st))
                    (task_counter st))
    end).

Definition task_delete (task_id : string) : Tool :=
  plain (fun st =>
    if negb (Dict.mem task_id (tasks_db st))
    then (VDict [("error", VStr ("Task " ++ task_id ++ " not found"))], st)
    else
      (VDict [("success", VBool true);
              ("message", VStr ("Task " ++ task_id ++ " deleted"))],
       with_tasks st (Dict.del task_id (tasks_db st)) (task_counter st))).

(** *** Notes management (lines 352-457) *)

Definition list_notes_body (tags : option (list string)) : Body :=
  fun st =>
    let notes := Dict.values (notes_db st) in
    let notes :=
      match tags with
      | Some (t :: ts) =>
          filter (fun n =>
                    existsb (fun tag => string_in tag (note_tags n)) (t :: ts))
                 notes
      | _ => notes
      end in
    let simplified_notes :=
      map (fun n => VDict [("id", VStr (note_id_of n));
                           ("title", VStr (note_title n));
                           ("summary", VStr (note_summary n));
                           ("tags", strs (note_tags n))])
          notes in
    (VDict [("count", VInt (Z.of_nat (List.length notes)));
            ("notes", VList simplified_notes)],
     st).

Definition list_notes (tags : option (list string)) : Tool :=
  fun st =>
    emit_event st (EventType_or_None st LIST) "note" None None
               (list_notes_body tags) st.

Definition get_note (note_id : string) : Tool :=
  plain (fun st =>
    match Dict.get note_id (notes_db st) with
    | None =>
        (VDict [("error",
                 VStr ("Note with ID '" ++ note_id ++ "' not found"))],
         st)
    | Some n => (note_value n, st)
    end).

(** The id [write_note] stores under, and the counter after the call. *)
Definition write_note_id (title : string) (note_id : option string)
    (st : State) : string * Z :=
  match note_id with
  | Some nid =>
      if truthy note_id then (nid, note_counter st)
      else
        let counter := note_counter st + 1 in
        (prefix_n 30 (replace_space (lower title)) ++ "-"
           ++ str_of_int counter,
         counter)
  | None =>
      let counter := note_counter st + 1 in
      (prefix_n 30 (replace_space (lower title)) ++ "-"
         ++ str_of_int counter,
       counter)
  end.

Definition write_note_body (title content summary : string)
    (tags : option (list string)) (note_id : option string)
    (now1 now2 : string) : Body :=
  fun st =>
    let '(nid, counter) := write_note_id title note_id st in
    let note :=
      mkNote nid title summary
             (match tags with Some ts => ts | None => [] end)
             content
             (match Dict.get nid (notes_db st) with
              | Some old => note_created_at old
              | None => now1
              end)
             now2 in
    let is_update := Dict.mem nid (notes_db st) in
    let action := if is_update then "updated" else "created" in
    (VDict [("success", VBool true);
            ("action", VStr action);
            ("note", note_value note)],
     with_notes st (Dict.set nid note (notes_db st)) counter).

Definition write_note (title content summary : string)
    (tags : option (list string)) (note_id : option string)
    (now1 now2 : string) : Tool :=
  fun st =>
    emit_event st (EventType_or_None st CREATE) "note" (Some "navigate_to")
               (Some (EventPriority_or st HIGH 2))
               (write_note_body title content summary tags note_id now1 now2)
               st.

Definition delete_note_body (note_id : string) : Body :=
  fun st =>
    if negb (Dict.mem note_id (notes_db st))
    then
      (VDict [("error",
               VStr ("Note with ID '" ++ note_id ++ "' not found"))],
       st)
    else
      (VDict [("success", VBool true);
              ("message",
               VStr ("Note with ID '" ++ note_id ++ "' has been deleted"))],
       with_notes st (Dict.del note_id (notes_db st)) (note_counter st)).

Definition delete_note (note_id : string) : Tool :=
  fun st =>
    emit_event st (EventType_or_None st DELETE) "note" None
               (Some (EventPriority_or st HIGH 2))
               (delete_note_body note_id) st.

(** *** Runs of the server *)

(** A call of one of the state-changing or state-reading tools. *)
Inductive Call : Type :=
| CallTaskCreate (title description priority now1 now2 : string)
| CallTaskList (status : option string)
| CallTaskUpdate (task_id : string)
    (status title description priority : option string) (now : string)
| CallTaskDelete (task_id : string)
| CallListNotes (tags : option (list string))
| CallGetNote (note_id : string)
| CallWriteNote (title content summary : string)
    (tags : option (list string)) (note_id : option string)
    (now1 now2 : string)
| CallDeleteNote (note_id : string)
| CallSyncChanges (last_sync_id : option string) (include_full_state : bool).

Definition run (c : Call) : Tool :=
  match c with
  | CallTaskCreate title description priority now1 now2 =>
      task_create title description priority now1 now2
  | CallTaskList status => task_list status
  | CallTaskUpdate task_id status title description priority now =>
      task_update task_id status title description priority now
  | CallTaskDelete task_id => task_delete task_id
  | CallListNotes tags => list_notes tags
  | CallGetNote note_id => get_note note_id
  | CallWriteNote title content summary tags note_id now1 now2 =>
      write_note title content summary tags note_id now1 now2
  | CallDeleteNote note_id => delete_note note_id
  | CallSyncChanges last_sync_id include_full_state =>
      sync_changes last_sync_id include_full_state
  end.

(** The states the module can be in: the initial globals, then any tool
    call; between calls the event manager (when imported) may change state on
    its own account (waiters registering and timing out, subscribers
    connecting, other producers emitting). *)
Inductive reachable : State -> Prop :=
| reach_initial : forall em, reachable (initial em)
| reach_call : forall st c, reachable st -> reachable (out_state (run c st))
| reach_bus : forall st b b',
    reachable st -> event_manager st = Some b -> reachable (with_bus st b').

(** The calls that operate on notes. *)
Definition note_call (c : Call) : bool :=
  match c with
  | CallListNotes _ | CallGetNote _ | CallWriteNote _ _ _ _ _ _ _
  | CallDeleteNote _ => true
  | _ => false
  end.

(** The calls that operate on tasks and change them. *)
Definition task_call (c : Call) : bool :=
  match c with
  | CallTaskCreate _ _ _ _ _ | CallTaskUpdate _ _ _ _ _ _
  | CallTaskDelete _ => true
  | _ => false
  end.

End Server.
End Server.

(** ** The spec's reading of the priority labels *)

(** The spec's words for [priority_min]: the labels ["low"], ["normal"],
    ["high"], ["critical"] name the four priorities, and an unknown label
    means [NORMAL].  Compared with [Server.priority_of_label] below. *)
Definition spec_priority (label : string) : EventPriority :=
  if String.eqb label "low" then LOW
  else if String.eqb label "normal" then NORMAL
  else if String.eqb label "high" then HIGH
  else if String.eqb label "critical" then CRITICAL
  else NORMAL.

(** The events of the log a [sync_changes] call with this cursor would
    report: none when the event system is not available. *)
Definition pending (parse_cursor : string -> Z)
    (last_sync_id : option string) (st : State) : list Event :=
  match event_manager st with
  | Some b =>
      EventBus.events_since (EventBus.cursor_of parse_cursor last_sync_id) b
  | None => []
  end.

(** The full state [sync_changes] reports from the stores. *)
Definition stores_state (st : State) : value :=
  VDict [("notes", VList (map note_value (Dict.values (notes_db st))));
         ("tasks", VList (map task_value (Dict.values (tasks_db st))))].

(** ** Text analysis (lines 116-129) *)

Module Text.

(** [str.isspace] on an ASCII character: tab to carriage return, the four
    separators 28 to 31, and the space. *)
Definition is_space (c : ascii) : bool :=
  let n := nat_of_ascii c in
  (Nat.leb 9 n && Nat.leb n 13) || (Nat.leb 28 n && Nat.leb n 32).

Definition is_empty (s : string) : bool :=
  match s with
  | EmptyString => true
  | String _ _ => false
  end.

(** [text.split()]: the maximal runs of non-whitespace characters; [cur] is
    the run being read. *)
Fixpoint split_ws_from (cur : string) (s : string) : list string :=
  match s with
  | EmptyString => if is_empty cur then [] else [cur]
  | String c s' =>
      if is_space c
      then (if is_empty cur then split_ws_from "" s'
            else cur :: split_ws_from "" s')
      else split_ws_from (cur ++ String c "") s'
  end.

Definition split_ws (s : string) : list string := split_ws_from "" s.

(** [text.split(sep)] for a one-character separator: one piece more than
    there are separators. *)
Fixpoint split_on_from (sep : ascii) (cur : string) (s : string)
    : list string :=
  match s with
  | EmptyString => [cur]
  | String c s' =>
      if Ascii.eqb c sep
      then cur :: split_on_from sep "" s'
      else split_on_from sep (cur ++ String c "") s'
  end.

Definition split_on (sep : ascii) (s : string) : list string :=
  split_on_from sep "" s.

(** [s.lstrip()], [s.rstrip()], [s.strip()] *)
Fixpoint lstrip (s : string) : string :=
  match s with
  | EmptyString => EmptyString
  | String c s' => if is_space c then lstrip s' else s
  end.

Fixpoint rstrip (s : string) : string :=
  match s with
  | EmptyString => EmptyString
  | String c s' =>
      let r := rstrip s' in
      if is_empty r && is_space c then EmptyString else String c r
  end.

Definition strip (s : string) : string := rstrip (lstrip s).

(** [len(s)], the number of characters. *)
Definition len (s : string) : Z := Z.of_nat (String.length s).

(** [sum(len(word) for word in words)] *)
Definition total_len (words : list string) : Z :=
  fold_right (fun w acc => len w + acc) 0 words.

(** [average_word_length]: the [int] 0 for no words, otherwise the float
    quotient of the two integers. *)
Inductive Average : Type :=
| AvgZero : Average
| AvgQuot : Z -> Z -> Average.

(** The dict [text_analyze] returns, key by key. *)
Record Stats : Type := mkStats {
  character_count : Z;
  word_count : Z;
  sentence_count : Z;
  average_word_length : Average;
  unique_words : Z;
  preview : string
}.

Definition text_analyze (text : string) : Stats :=
  let words := split_ws text in
  let sentences := split_on "."%char text in
  mkStats
    (len text)
    (Z.of_nat (List.length words))
    (Z.of_nat
       (List.length (filter (fun s => negb (is_empty (strip s))) sentences)))
    (match words with
     | [] => AvgZero
     | _ :: _ => AvgQuot (total_len words) (Z.of_nat (List.length words))
     end)
    (Z.of_nat (List.length (nodup string_dec words)))
    (if 100 <? len text then prefix_n 100 text ++ "..." else text).

End Text.

(** ** What the stores look like in a run *)

(** [f"task_{task_counter}"] *)
Definition task_key (n : Z) : string := "task_" ++ str_of_int n.

(** The shape the stores keep: every record is filed under its own id, every
    task id was issued by the counter, keys are unique (as in any [dict]),
    and the counters have not gone below their initial 0. *)
Record stores_ok (st : State) : Prop := mkStoresOk {
  tasks_unique : NoDup (Dict.keys (tasks_db st));
  notes_unique : NoDup (Dict.keys (notes_db st));
  tasks_keyed :
    forall k t, Dict.get k (tasks_db st) = Some t -> task_id_of t = k;
  notes_keyed :
    forall k n, Dict.get k (notes_db st) = Some n -> note_id_of n = k;
  tasks_issued :
    forall k, Dict.mem k (tasks_db st) = true ->
              exists n, 1 <= n <= task_counter st /\ k = task_key n;
  task_counter_pos : 0 <= task_counter st;
  note_counter_pos : 0 <= note_counter st
}.

(** The id part [write_note] derives from a title. *)
Definition slug (title : string) : string :=
  prefix_n 30 (replace_space (lower title)).

Definition is_upper (c : ascii) : bool :=
  let n := nat_of_ascii c in (Nat.leb 65 n && Nat.leb n 90)%bool.

(** A character a slug can hold: neither a space nor an upper-case ASCII
    letter. *)
Definition slug_char (c : ascii) : bool :=
  (negb (Ascii.eqb c " "%char) && negb (is_upper c))%bool.

(** [tags or []] *)
Definition tags_or_empty (tags : option (list string)) : list string :=
  match tags with
  | Some ts => ts
  | None => []
  end.

(** A note as [list_notes] shows it. *)
Definition note_overview (n : Note) : value :=
  VDict [("id", VStr (note_id_of n));
         ("title", VStr (note_title n));
         ("summary", VStr (note_summary n));
         ("tags", strs (note_tags n))].

(** Whether every character of a text is ASCII (below 128). *)
Definition ascii_only (s : string) : bool :=
  forallb (fun c => Nat.ltb (nat_of_ascii c) 128) (list_ascii_of_string s).

(** Whether nothing lies after a cursor: no resident event has an id above
    it (vacuously so when the event system is not available). *)
Definition quiet_since (parse_cursor : string -> Z)
    (last_sync_id : option string) (st : State) : bool :=
  match event_manager st with
  | Some b =>
      forallb
        (fun e => ev_id e <=? EventBus.cursor_of parse_cursor last_sync_id)
        (log b)
  | None => true
  end.

(** ** Runs without emissions *)

Module Runs.
Section Runs.

Variable capacity : nat.
Variable queue_bound : nat.
Variable parse_cursor : string -> Z.
Variable default_priority : Priority.
Variable bus_snapshot : Bus -> value.

(** The state after a sequence of tool calls none of which emits an event;
    [None] as soon as one of them does. *)
Fixpoint quiet_run (cs : list Server.Call) (st : State) : option State :=
  match cs with
  | [] => Some st
  | c :: cs' =>
      let o :=
        Server.run capacity queue_bound parse_cursor default_priority
                   bus_snapshot c st in
      match out_emitted o with
      | [] => quiet_run cs' (out_state o)
      | _ :: _ => None
      end
  end.

End Runs.
End Runs.

(** ** A concrete configuration *)

Module Scenario.

Definition capacity : nat := 8.
Definition queue_bound : nat := 4.

(** A cursor string is read as the decimal id it spells. *)
Definition parse_cursor (s : string) : Z :=
  match NilZero.int_of_string s with
  | Some i => Z.of_int i
  | None => 0
  end.

Definition default_priority : Priority := PEnum NORMAL.

Definition bus_snapshot (b : Bus) : value := VDict [].

Definition write_note :=
  Server.write_note capacity queue_bound default_priority.

Definition delete_note :=
  Server.delete_note capacity queue_bound default_priority.

Definition sync_changes := Server.sync_changes parse_cursor bus_snapshot.

Definition run :=
  Server.run capacity queue_bound parse_cursor default_priority bus_snapshot.

Definition reachable :=
  Server.reachable capacity queue_bound parse_cursor default_priority
                   bus_snapshot.

(** The module as the unified server loads it, and as it runs standalone
    (the import of the event system failed). *)
Definition unified : State := initial (Some started_bus).
Definition standalone : State := initial None.

Definition first_note : Server.Call :=
  Server.CallWriteNote "My Title" "body" "sum" None None "t1" "t2".

(** The same two after a first note was written. *)
Definition unified_one_note : State := out_state (run first_note unified).
Definition standalone_one_note : State :=
  out_state (run first_note standalone).

(** A bus with a long-poll waiter on notes of priority [HIGH] and up, one on
    tasks, and one streaming subscriber; then the same after a first note
    was written. *)
Definition watching_bus : Bus :=
  mkBus [] 0
        [mkWaiter "claude" (mkFilter ["note"] 2 0);
         mkWaiter "claude" (mkFilter ["task"] 0 0)]
        [mkSubscriber "ui" None []].

Definition watched : State := initial (Some watching_bus).
Definition watched_one_note : State := out_state (run first_note watched).

(** A first task, created after the first note. *)
Definition first_task : Server.Call :=
  Server.CallTaskCreate "Buy milk" "" "medium" "t5" "t6".

Definition unified_one_task : State :=
  out_state (run first_task unified_one_note).

Definition list_notes :=
  Server.list_notes capacity queue_bound default_priority.

Definition quiet_run :=
  Runs.quiet_run capacity queue_bound parse_cursor default_priority
                 bus_snapshot.

(** Calls that emit nothing: a task is created, a note is read, and an
    unknown note is asked to be deleted. *)
Definition quiet_calls : list Server.Call :=
  [first_task; Server.CallGetNote "my-title-1";
   Server.CallDeleteNote "no-such-note"].

End Scenario.

(** * Properties *)

(** ** Facts about dictionaries and strings *)

Module DictFacts.
Section DictFacts.
Variable V : Type.
Implicit Types (d : Dict.t V) (k : string) (v : V).

Lemma get_set_same k v d : Dict.get k (Dict.set k v d) = Some v.
Proof.
  induction d as [|[k' v'] d IH]; cbn.
  - now rewrite String.eqb_refl.
  - destruct (String.eqb k k') eqn:E; cbn.
    + now rewrite String.eqb_refl.
    + now rewrite E.
Qed.

Lemma get_set_other k k' v d :
  String.eqb k k' = false -> Dict.get k (Dict.set k' v d) = Dict.get k d.
Proof.
  intros Hne. induction d as [|[k0 v0] d IH]; cbn.
  - now rewrite Hne.
  - destruct (String.eqb k' k0) eqn:E; cbn.
    + apply String.eqb_eq in E. subst k0. now rewrite Hne.
    + now rewrite IH.
Qed.

Lemma mem_set k k' v d :
  Dict.mem k (Dict.set k' v d) = (String.eqb k k' || Dict.mem k d)%bool.
Proof.
  unfold Dict.mem. destruct (String.eqb k k') eqn:E.
  - apply String.eqb_eq in E. subst k'. now rewrite get_set_same.
  - now rewrite get_set_other.
Qed.

Lemma mem_del_false k k' d :
  Dict.mem k d = false -> Dict.mem k (Dict.del k' d) = false.
Proof.
  unfold Dict.mem. induction d as [|[k0 v0] d IH]; cbn; [easy|].
  destruct (String.eqb k k0) eqn:E; [discriminate|].
  intros H. destruct (String.eqb k' k0); cbn; [exact H|].
  rewrite E. now apply IH.
Qed.

Lemma mem_in_keys k d : Dict.mem k d = true <-> In k (Dict.keys d).
Proof.
  unfold Dict.mem. induction d as [|[k0 v0] d IH]; cbn.
  - split; [discriminate|contradiction].
  - destruct (String.eqb k k0) eqn:E.
    + apply String.eqb_eq in E. subst k0. split; [now left|reflexivity].
    + rewrite IH. apply String.eqb_neq in E.
      split; [now right|]. intros [H|H]; [congruence|exact H].
Qed.

Lemma get_in k v d : Dict.get k d = Some v -> In (k, v) d.
Proof.
  induction d as [|[k0 v0] d IH]; cbn; [discriminate|].
  destruct (String.eqb k k0) eqn:E.
  - apply String.eqb_eq in E. subst k0. intros [= ->]. now left.
  - intros H. right. now apply IH.
Qed.

Lemma set_present k v d :
  Dict.mem k d = true -> Dict.keys (Dict.set k v d) = Dict.keys d.
Proof.
  unfold Dict.mem. induction d as [|[k0 v0] d IH]; cbn; [discriminate|].
  destruct (String.eqb k k0) eqn:E; cbn.
  - apply String.eqb_eq in E. now subst k0.
  - intros H. f_equal. now apply IH.
Qed.

Lemma set_absent k v d :
  Dict.mem k d = false -> Dict.set k v d = (d ++ [(k, v)])%list.
Proof.
  unfold Dict.mem. induction d as [|[k0 v0] d IH]; cbn; [reflexivity|].
  destruct (String.eqb k k0) eqn:E; [discriminate|].
  intros H. now rewrite IH.
Qed.

Lemma keys_app d d' :
  Dict.keys (d ++ d')%list = (Dict.keys d ++ Dict.keys d')%list.
Proof. apply map_app. Qed.

Lemma set_keys_incl x k v d :
  In x (Dict.keys (Dict.set k v d)) -> x = k \/ In x (Dict.keys d).
Proof.
  induction d as [|[k0 v0] d IH]; cbn.
  - intros [H|[]]. now left.
  - destruct (String.eqb k k0) eqn:E; cbn.
    + intros [H|H]; [now left|right; now right].
    + intros [H|H]; [right; now left|].
      destruct (IH H) as [H'|H']; [now left|right; now right].
Qed.

Lemma set_unique k v d :
  NoDup (Dict.keys d) -> NoDup (Dict.keys (Dict.set k v d)).
Proof.
  induction d as [|[k0 v0] d IH]; cbn.
  - intros _. constructor; [easy|constructor].
  - intros Hd. inversion Hd as [|? ? Hnot Hrest]; subst.
    destruct (String.eqb k k0) eqn:E; cbn.
    + apply String.eqb_eq in E. subst k0. now constructor.
    + constructor; [|now apply IH].
      intros Hin. apply set_keys_incl in Hin. destruct Hin as [H|H].
      * subst k0. now rewrite String.eqb_refl in E.
      * now apply Hnot.
Qed.

Lemma get_del_other k k' d :
  String.eqb k k' = false -> Dict.get k (Dict.del k' d) = Dict.get k d.
Proof.
  intros Hne. induction d as [|[k0 v0] d IH]; cbn; [reflexivity|].
  destruct (String.eqb k' k0) eqn:E; cbn.
  - apply String.eqb_eq in E. subst k0. now rewrite Hne.
  - now rewrite IH.
Qed.

Lemma del_keys_incl k k' d :
  In k (Dict.keys (Dict.del k' d)) -> In k (Dict.keys d).
Proof.
  induction d as [|[k0 v0] d IH]; cbn; [easy|].
  destruct (String.eqb k' k0); cbn; [now right|].
  intros [H|H]; [now left|right; now apply IH].
Qed.

Lemma del_unique k d :
  NoDup (Dict.keys d) -> NoDup (Dict.keys (Dict.del k d)).
Proof.
  induction d as [|[k0 v0] d IH]; cbn; [easy|].
  intros Hd. inversion Hd as [|? ? Hnot Hrest]; subst.
  destruct (String.eqb k k0); cbn; [exact Hrest|].
  constructor; [|now apply IH].
  intros Hin. apply Hnot. now apply del_keys_incl in Hin.
Qed.

Lemma get_del_same k d :
  NoDup (Dict.keys d) -> Dict.get k (Dict.del k d) = None.
Proof.
  induction d as [|[k0 v0] d IH]; cbn; [easy|].
  intros Hd. inversion Hd as [|? ? Hnot Hrest]; subst.
  destruct (String.eqb k k0) eqn:E; cbn.
  - apply String.eqb_eq in E. subst k0.
    destruct (Dict.get k d) eqn:G; [|reflexivity].
    exfalso. apply Hnot. apply mem_in_keys. unfold Dict.mem. now rewrite G.
  - rewrite E. now apply IH.
Qed.

Lemma del_set_absent k v d :
  Dict.mem k d = false -> Dict.del k (Dict.set k v d) = d.
Proof.
  unfold Dict.mem. induction d as [|[k0 v0] d IH]; cbn.
  - now rewrite String.eqb_refl.
  - destruct (String.eqb k k0) eqn:E; [discriminate|].
    intros H. cbn. rewrite E. now rewrite IH.
Qed.

Lemma del_length k d :
  Dict.mem k d = true ->
  S (List.length (Dict.del k d)) = List.length d.
Proof.
  unfold Dict.mem. induction d as [|[k0 v0] d IH]; cbn; [discriminate|].
  destruct (String.eqb k k0) eqn:E; cbn; [reflexivity|].
  intros H. now rewrite IH.
Qed.

Lemma set_present_length k v d :
  Dict.mem k d = true ->
  List.length (Dict.set k v d) = List.length d.
Proof.
  intros H. rewrite <- (length_map fst (Dict.set k v d)).
  rewrite <- (length_map fst d). f_equal. now apply set_present.
Qed.

Lemma get_set k k' v d :
  Dict.get k (Dict.set k' v d)
    = if String.eqb k k' then Some v else Dict.get k d.
Proof.
  destruct (String.eqb k k') eqn:E.
  - apply String.eqb_eq in E. subst k'. apply get_set_same.
  - now apply get_set_other.
Qed.

End DictFacts.
End DictFacts.

Lemma append_dash_nonempty (s t : string) :
  String.eqb "" (s ++ "-" ++ t) = false.
Proof. destruct s; reflexivity. Qed.

Lemma truthy_nonempty (s : string) :
  truthy (Some s) = true -> String.eqb "" s = false.
Proof.
  unfold truthy. rewrite String.eqb_sym. now destruct (String.eqb "" s).
Qed.

(** ** Long polling and sync *)

Section ServerProperties.

Variable capacity : nat.
Variable queue_bound : nat.
Variable parse_cursor : string -> Z.
Variable default_priority : Priority.
Variable bus_snapshot : Bus -> value.

Local Abbreviation sync_changes :=
  (Server.sync_changes parse_cursor bus_snapshot).
Local Abbreviation write_note :=
  (Server.write_note capacity queue_bound default_priority).
Local Abbreviation delete_note :=
  (Server.delete_note capacity queue_bound default_priority).
Local Abbreviation list_notes :=
  (Server.list_notes capacity queue_bound default_priority).
Local Abbreviation emit_event :=
  (Server.emit_event capacity queue_bound default_priority).
Local Abbreviation run :=
  (Server.run capacity queue_bound parse_cursor default_priority bus_snapshot).
Local Abbreviation reachable :=
  (Server.reachable capacity queue_bound parse_cursor default_priority
                    bus_snapshot).
Local Abbreviation quiet_run :=
  (Runs.quiet_run capacity queue_bound parse_cursor default_priority
                  bus_snapshot).

(** C1 (as amended): while the event system is available,
    [wait_for_updates] always forwards the call to the wait scheduler, and
    the timeout it forwards is [min(timeout, 300)]: never above 300, equal to
    300 for every timeout of 300 or more, the given timeout unchanged
    otherwise (a negative one included), hence within [0, 300] for every
    non-negative timeout. *)
Theorem wait_for_updates_timeout_capped :
  forall targets timeout since priority_min st b,
    event_manager st = Some b ->
    exists c,
      Server.wait_for_updates targets timeout since priority_min st
        = Server.Forwarded c
      /\ Server.wc_timeout c = Z.min timeout 300
      /\ Server.wc_timeout c <= 300
      /\ (300 <= timeout -> Server.wc_timeout c = 300)
      /\ (timeout <= 300 -> Server.wc_timeout c = timeout)
      /\ (0 <= timeout -> 0 <= Server.wc_timeout c <= 300).
Proof.
  intros targets timeout since priority_min st b Hb.
  unfold Server.wait_for_updates. rewrite Hb.
  eexists. split; [reflexivity|]. cbn [Server.wc_timeout].
  repeat split; lia.
Qed.

(** C2: when the event system is unavailable, [wait_for_updates] returns a
    dict with status ["error"] and an empty events list, and [sync_changes]
    returns a dict with empty events; both are ordinary return values, and
    neither call changes the globals or emits anything. *)
Theorem event_system_unavailable_results :
  forall targets timeout since priority_min last_sync_id include_full_state st,
    event_manager st = None ->
    (exists d,
        Server.wait_for_updates targets timeout since priority_min st
          = Server.Returned (VDict d)
        /\ Dict.get "status" d = Some (VStr "error")
        /\ Dict.get "events" d = Some (VList []))
    /\ (exists d,
           out_result (sync_changes last_sync_id include_full_state st)
             = VDict d
           /\ Dict.get "events" d = Some (VList []))
    /\ out_state (sync_changes last_sync_id include_full_state st) = st
    /\ out_emitted (sync_changes last_sync_id include_full_state st) = [].
Proof.
  intros targets timeout since priority_min last_sync_id full st Hnone.
  unfold Server.wait_for_updates, Server.sync_changes. rewrite Hnone.
  split; [|split; [|split]].
  - eexists. split; [reflexivity|]. split; reflexivity.
  - eexists. split; [reflexivity|]. reflexivity.
  - reflexivity.
  - reflexivity.
Qed.

(** C3 (the code at the failing input): with the event system unavailable,
    the result of [wait_for_updates] has exactly the keys [status], [error],
    [events], [summary]; the documented keys [last_event_id] and [duration]
    are missing. *)
Theorem wait_for_updates_error_result_keys :
  exists d,
    Server.wait_for_updates None 30 None "normal" (initial None)
      = Server.Returned (VDict d)
    /\ Dict.keys d = ["status"; "error"; "events"; "summary"]
    /\ Dict.get "status" d = Some (VStr "error")
    /\ Dict.mem "last_event_id" d = false
    /\ Dict.mem "duration" d = false.
Proof.
  eexists. split; [reflexivity|]. repeat split.
Qed.

(** The labels [priority_map] knows. *)
Lemma priority_of_label_num :
  forall st label,
    priority_num (Server.priority_of_label st label)
      = priority_rank (spec_priority label).
Proof.
  intros st label.
  unfold Server.priority_of_label, Server.priority_map, spec_priority,
    Server.EventPriority_or.
  cbn [Dict.get].
  destruct (String.eqb label "low"); [now destruct (Server.imported st)|].
  destruct (String.eqb label "normal"); [now destruct (Server.imported st)|].
  destruct (String.eqb label "high"); [now destruct (Server.imported st)|].
  destruct (String.eqb label "critical"); [now destruct (Server.imported st)|].
  reflexivity.
Qed.

(** C4: [wait_for_updates] forwards the call with a filter whose
    [priority_min] is the numeric priority of the label: 0, 1, 2, 3 for
    ["low"], ["normal"], ["high"], ["critical"], and 1 ([NORMAL]) for every
    other label; the call does not fail on an unknown label. *)
Theorem wait_for_updates_priority_min :
  forall targets timeout since label st b,
    event_manager st = Some b ->
    exists c f,
      Server.wait_for_updates targets timeout since label st
        = Server.Forwarded c
      /\ Server.wc_filters c = Some f
      /\ priority_num (ef_priority_min f) = priority_rank (spec_priority label)
      /\ priority_num (ef_priority_min f)
         = (if String.eqb label "low" then 0
            else if String.eqb label "normal" then 1
            else if String.eqb label "high" then 2
            else if String.eqb label "critical" then 3
            else 1).
Proof.
  intros targets timeout since label st b Hb.
  unfold Server.wait_for_updates. rewrite Hb.
  unfold Server.imported. rewrite Hb.
  do 2 eexists. split; [reflexivity|]. split; [reflexivity|].
  cbn [ef_priority_min]. rewrite priority_of_label_num.
  split; [reflexivity|].
  unfold spec_priority.
  destruct (String.eqb label "low"); [reflexivity|].
  destruct (String.eqb label "normal"); [reflexivity|].
  destruct (String.eqb label "high"); [reflexivity|].
  destruct (String.eqb label "critical"); reflexivity.
Qed.

(** ** The emit adapter around the note tools *)

Lemma plain_emitted (func : Body) (st : State) :
  out_emitted (plain func st) = [].
Proof. unfold plain. now destruct (func st). Qed.

Lemma plain_state (func : Body) (st : State) :
  out_state (plain func st) = snd (func st).
Proof. unfold plain. now destruct (func st). Qed.

Lemma plain_result (func : Body) (st : State) :
  out_result (plain func st) = fst (func st).
Proof. unfold plain. now destruct (func st). Qed.

(** The decorator never changes what the operation returns. *)
Lemma emit_event_result st ty tg h p (func : Body) :
  out_result (emit_event st ty tg h p func st) = fst (func st).
Proof.
  unfold Server.emit_event, Server.emit_event_imported, plain.
  destruct (Server.imported st); destruct (func st) as [r st1]; cbn;
    [|reflexivity].
  destruct (Server.succeeded r); [|reflexivity].
  destruct (event_manager st1); reflexivity.
Qed.

(** It leaves the stores as the operation left them. *)
Lemma emit_event_notes st ty tg h p (func : Body) :
  notes_db (out_state (emit_event st ty tg h p func st))
    = notes_db (snd (func st)).
Proof.
  unfold Server.emit_event, Server.emit_event_imported, plain.
  destruct (Server.imported st); destruct (func st) as [r st1]; cbn;
    [|reflexivity].
  destruct (Server.succeeded r); [|reflexivity].
  destruct (event_manager st1); reflexivity.
Qed.

(** A failed operation is passed through untouched. *)
Lemma emit_event_failed st ty tg h p (func : Body) :
  Server.succeeded (fst (func st)) = false ->
  emit_event st ty tg h p func st = plain func st.
Proof.
  unfold Server.emit_event, Server.emit_event_imported, plain.
  destruct (Server.imported st); destruct (func st) as [r st1]; cbn;
    [|reflexivity].
  now intros ->.
Qed.

(** Every event the decorator emits carries the decorator's arguments and
    the operation's result, and is emitted only when the event system was
    imported and the operation succeeded. *)
Lemma emit_event_emitted st ty tg h p (func : Body) e :
  In e (out_emitted (emit_event st ty tg h p func st)) ->
  Server.imported st = true
  /\ Server.succeeded (fst (func st)) = true
  /\ ev_type e = ty /\ ev_target e = tg /\ ev_ui_hint e = h
  /\ ev_priority e = match p with Some q => q | None => default_priority end
  /\ ev_payload e = fst (func st).
Proof.
  unfold Server.emit_event, Server.emit_event_imported, plain.
  destruct (Server.imported st); destruct (func st) as [r st1]; cbn;
    [|contradiction].
  destruct (Server.succeeded r); [|contradiction].
  destruct (event_manager st1) as [b|]; [|contradiction].
  cbn. intros [<-|[]]. cbn. repeat split; reflexivity.
Qed.

(** With the event system imported, a successful operation emits exactly one
    event, the one [emit] returns on the bus as the operation left it. *)
Lemma emit_event_succeeded st ty tg h p (func : Body) b1 :
  Server.imported st = true ->
  Server.succeeded (fst (func st)) = true ->
  event_manager (snd (func st)) = Some b1 ->
  let eb :=
    EventBus.emit capacity queue_bound ty tg
      (match p with Some q => q | None => default_priority end)
      (fst (func st)) h b1 in
  emit_event st ty tg h p func st
    = mkOutcome (fst (func st)) (with_bus (snd (func st)) (snd eb)) [fst eb].
Proof.
  unfold Server.emit_event, Server.emit_event_imported.
  intros -> Hs Hb. destruct (func st) as [r st1]; cbn in *.
  rewrite Hs, Hb. reflexivity.
Qed.

Lemma write_note_id_nonempty title note_id st :
  String.eqb "" (fst (Server.write_note_id title note_id st)) = false.
Proof.
  unfold Server.write_note_id. destruct note_id as [nid|].
  - destruct (truthy (Some nid)) eqn:T; cbn [fst].
    + now apply truthy_nonempty.
    + apply append_dash_nonempty.
  - apply append_dash_nonempty.
Qed.

Lemma write_note_body_notes title content summary tags note_id now1 now2 st :
  exists note,
    notes_db
      (snd (Server.write_note_body title content summary tags note_id
                                   now1 now2 st))
    = Dict.set (fst (Server.write_note_id title note_id st)) note
               (notes_db st).
Proof.
  unfold Server.write_note_body.
  destruct (Server.write_note_id title note_id st) as [nid counter].
  eexists. reflexivity.
Qed.

Lemma write_note_body_bus title content summary tags note_id now1 now2 st :
  event_manager
    (snd (Server.write_note_body title content summary tags note_id
                                 now1 now2 st))
  = event_manager st.
Proof.
  unfold Server.write_note_body.
  now destruct (Server.write_note_id title note_id st).
Qed.

Lemma write_note_body_succeeded
    title content summary tags note_id now1 now2 st :
  Server.succeeded
    (fst (Server.write_note_body title content summary tags note_id
                                 now1 now2 st)) = true.
Proof.
  unfold Server.write_note_body.
  now destruct (Server.write_note_id title note_id st).
Qed.

(** ** An invariant of the note store *)

(** No reachable note store has the empty string as a key: [write_note]
    stores under a generated id whenever the given one is falsy. *)
Lemma reachable_no_empty_key :
  forall st, reachable st -> Dict.mem "" (notes_db st) = false.
Proof.
  induction 1 as [em|st c Hst IH|st b b' Hst IH Hb].
  - reflexivity.
  - destruct c; cbn [Server.run].
    + unfold Server.task_create. now rewrite plain_state.
    + unfold Server.task_list. rewrite plain_state. cbn.
      now destruct status.
    + unfold Server.task_update. rewrite plain_state.
      now destruct (Dict.get task_id (tasks_db st)).
    + unfold Server.task_delete. rewrite plain_state.
      now destruct (Dict.mem task_id (tasks_db st)).
    + unfold Server.list_notes. now rewrite emit_event_notes.
    + unfold Server.get_note. rewrite plain_state.
      now destruct (Dict.get note_id (notes_db st)).
    + unfold Server.write_note. rewrite emit_event_notes.
      destruct (write_note_body_notes title content summary tags note_id
                                      now1 now2 st) as [note ->].
      now rewrite DictFacts.mem_set, write_note_id_nonempty, IH.
    + unfold Server.delete_note. rewrite emit_event_notes.
      unfold Server.delete_note_body.
      destruct (Dict.mem note_id (notes_db st)); cbn; [|exact IH].
      now apply DictFacts.mem_del_false.
    + unfold Server.sync_changes.
      now destruct (event_manager st), include_full_state.
  - exact IH.
Qed.

(** ** Which operations emit *)

(** C5: a [delete_note] call for an id that is not in [notes_db] returns an
    error result and emits no event; the globals, and with them the event
    log, the waiters and the subscribers, are exactly as before the call. *)
Theorem delete_note_missing_emits_nothing :
  forall note_id st,
    Dict.mem note_id (notes_db st) = false ->
    has_key "error" (out_result (delete_note note_id st)) = true
    /\ out_emitted (delete_note note_id st) = []
    /\ out_state (delete_note note_id st) = st
    /\ event_manager (out_state (delete_note note_id st)) = event_manager st.
Proof.
  intros note_id st Hmem.
  assert (Hbody : Server.delete_note_body note_id st
                  = (VDict [("error",
                             VStr ("Note with ID '" ++ note_id
                                     ++ "' not found"))], st)).
  { unfold Server.delete_note_body. now rewrite Hmem. }
  unfold Server.delete_note.
  rewrite emit_event_failed by (now rewrite Hbody).
  unfold plain. rewrite Hbody. cbn. repeat split.
Qed.

(** C6 (as amended): with the event system imported, every [write_note]
    call that reports a newly created note succeeds and emits exactly one
    event: the one [emit] returns for type [CREATE], target ["note"],
    priority [HIGH] and ui_hint ["navigate_to"], with the next id of the log
    and the call's result as payload. *)
Theorem write_note_created_emits_create :
  forall title content summary tags note_id now1 now2 st b,
    event_manager st = Some b ->
    field "action"
      (out_result (write_note title content summary tags note_id now1 now2 st))
      = Some (VStr "created") ->
    exists e b',
      out_emitted (write_note title content summary tags note_id now1 now2 st)
        = [e]
      /\ ev_type e = Some CREATE
      /\ ev_target e = "note"
      /\ ev_priority e = PEnum HIGH
      /\ ev_ui_hint e = Some "navigate_to"
      /\ ev_id e = last_id b + 1
      /\ ev_payload e
         = out_result
             (write_note title content summary tags note_id now1 now2 st)
      /\ field "success" (ev_payload e) = Some (VBool true)
      /\ event_manager
           (out_state
              (write_note title content summary tags note_id now1 now2 st))
         = Some b'
      /\ EventBus.emit capacity queue_bound (Some CREATE) "note" (PEnum HIGH)
           (ev_payload e) (Some "navigate_to") b = (e, b').
Proof.
  intros title content summary tags note_id now1 now2 st b Hb _.
  assert (Hi : Server.imported st = true)
    by (unfold Server.imported; now rewrite Hb).
  unfold Server.write_note.
  rewrite (emit_event_succeeded st _ _ _ _ _ (b1 := b) Hi
             (write_note_body_succeeded _ _ _ _ _ _ _ _)
             (eq_trans (write_note_body_bus _ _ _ _ _ _ _ _) Hb)).
  unfold Server.EventType_or_None, Server.EventPriority_or. rewrite Hi.
  cbn [out_emitted out_result out_state].
  do 2 eexists. split; [reflexivity|].
  unfold EventBus.emit, EventBus.append.
  cbn [fst snd ev_type ev_target ev_priority ev_ui_hint ev_id ev_payload].
  repeat split.
  unfold Server.write_note_body.
  now destruct (Server.write_note_id title note_id st).
Qed.

(** C9: [task_create], [task_update] and [task_delete] are not wrapped by
    the emit adapter, and no call of them, successful or not, emits an
    event or touches the event manager (its log, waiters and subscribers) or
    the note store. *)
Theorem task_calls_emit_nothing :
  forall c st,
    Server.task_call c = true ->
    (exists body, run c = plain body)
    /\ out_emitted (run c st) = []
    /\ event_manager (out_state (run c st)) = event_manager st
    /\ notes_db (out_state (run c st)) = notes_db st.
Proof.
  intros c st Hc. destruct c; try discriminate Hc; cbn [Server.run].
  - unfold Server.task_create. split; [eexists; reflexivity|].
    rewrite plain_emitted, plain_state. repeat split.
  - unfold Server.task_update. split; [eexists; reflexivity|].
    rewrite plain_emitted, plain_state.
    destruct (Dict.get task_id (tasks_db st)); repeat split.
  - unfold Server.task_delete. split; [eexists; reflexivity|].
    rewrite plain_emitted, plain_state.
    destruct (Dict.mem task_id (tasks_db st)); repeat split.
Qed.

(** In every reachable state, a [write_note] call whose [note_id] is
    already a key of [notes_db] reports action ["updated"]. *)
Lemma write_note_existing_reports_updated :
  forall title content summary tags nid now1 now2 st,
    reachable st ->
    Dict.mem nid (notes_db st) = true ->
    field "action"
      (out_result
         (write_note title content summary tags (Some nid) now1 now2 st))
      = Some (VStr "updated").
Proof.
  intros title content summary tags nid now1 now2 st Hreach Hmem.
  assert (Htruthy : truthy (Some nid) = true).
  { cbn. destruct (String.eqb nid "") eqn:E; [|reflexivity].
    apply String.eqb_eq in E. subst nid.
    now rewrite (reachable_no_empty_key Hreach) in Hmem. }
  unfold Server.write_note. rewrite emit_event_result.
  unfold Server.write_note_body, Server.write_note_id.
  rewrite Htruthy. cbn. now rewrite Hmem.
Qed.

(** ** [sync_changes] *)

(** [sync_changes] reads: it emits nothing and leaves the globals alone. *)
Lemma sync_changes_reads_only last_sync_id full st :
  out_state (sync_changes last_sync_id full st) = st
  /\ out_emitted (sync_changes last_sync_id full st) = [].
Proof.
  unfold Server.sync_changes. now destruct (event_manager st).
Qed.

(** What [sync_changes] reports: the pending events, and as next cursor the
    id of the last of them, or the given cursor when there are none. *)
Lemma sync_changes_reports last_sync_id full st :
  field "events" (out_result (sync_changes last_sync_id full st))
    = Some (VList (map EventBus.event_value
                       (pending parse_cursor last_sync_id st)))
  /\ field "next_sync_id" (out_result (sync_changes last_sync_id full st))
     = Some (match rev (pending parse_cursor last_sync_id st) with
             | e :: _ => VInt (ev_id e)
             | [] => EventBus.sync_id_value last_sync_id
             end).
Proof.
  unfold Server.sync_changes, pending.
  destruct (event_manager st) as [b|]; [|split; reflexivity].
  unfold EventBus.sync_changes. cbn [out_result field].
  destruct full; cbn [app].
  - rewrite !DictFacts.get_set_other by reflexivity. split; reflexivity.
  - split; reflexivity.
Qed.

Lemma quiet_since_pending last_sync_id st :
  quiet_since parse_cursor last_sync_id st = true ->
  pending parse_cursor last_sync_id st = [].
Proof.
  unfold quiet_since, pending. destruct (event_manager st) as [b|]; [|easy].
  unfold EventBus.events_since.
  induction (log b) as [|e l IH]; cbn; [reflexivity|].
  intros H. apply andb_true_iff in H. destruct H as [He Hl].
  apply Z.leb_le in He.
  destruct (Z.ltb_spec (EventBus.cursor_of parse_cursor last_sync_id)
                       (ev_id e)); [lia|].
  now apply IH.
Qed.

(** A decorated tool that emits nothing leaves the event manager as its body
    left it. *)
Lemma emit_event_quiet st ty tg h p (func : Body) :
  out_emitted (emit_event st ty tg h p func st) = [] ->
  event_manager (out_state (emit_event st ty tg h p func st))
    = event_manager (snd (func st)).
Proof.
  unfold Server.emit_event, Server.emit_event_imported, plain.
  destruct (Server.imported st); destruct (func st) as [r st1]; cbn;
    [|reflexivity].
  destruct (Server.succeeded r); [|reflexivity].
  destruct (event_manager st1) eqn:E; cbn; [discriminate|].
  intros _. exact E.
Qed.

(** A call that emits nothing leaves the event manager alone. *)
Lemma run_quiet_bus c st :
  out_emitted (run c st) = [] ->
  event_manager (out_state (run c st)) = event_manager st.
Proof.
  destruct c; cbn [Server.run].
  - intros _. unfold Server.task_create. now rewrite plain_state.
  - intros _. unfold Server.task_list. rewrite plain_state. cbn.
    now destruct status.
  - intros _. unfold Server.task_update. rewrite plain_state.
    now destruct (Dict.get task_id (tasks_db st)).
  - intros _. unfold Server.task_delete. rewrite plain_state.
    now destruct (Dict.mem task_id (tasks_db st)).
  - unfold Server.list_notes. intros H.
    now rewrite (emit_event_quiet _ _ _ _ _ _ H).
  - intros _. unfold Server.get_note. rewrite plain_state.
    now destruct (Dict.get note_id (notes_db st)).
  - unfold Server.write_note. intros H.
    rewrite (emit_event_quiet _ _ _ _ _ _ H). apply write_note_body_bus.
  - unfold Server.delete_note. intros H.
    rewrite (emit_event_quiet _ _ _ _ _ _ H).
    unfold Server.delete_note_body.
    now destruct (Dict.mem note_id (notes_db st)).
  - intros _.
    now rewrite (proj1 (sync_changes_reads_only last_sync_id
                                                include_full_state st)).
Qed.

Lemma quiet_run_bus cs :
  forall st st',
    quiet_run cs st = Some st' -> event_manager st' = event_manager st.
Proof.
  induction cs as [|c cs IH]; intros st st'; cbn.
  - now intros [= ->].
  - destruct (out_emitted (run c st)) eqn:E; [|discriminate].
    intros H. rewrite (IH _ _ H). now apply run_quiet_bus.
Qed.

(** What [sync_changes] reports depends on the event manager and the cursor
    only. *)
Lemma sync_changes_same_bus last_sync_id full full' st st' :
  event_manager st' = event_manager st ->
  field "events" (out_result (sync_changes last_sync_id full' st'))
    = field "events" (out_result (sync_changes last_sync_id full st))
  /\ field "next_sync_id" (out_result (sync_changes last_sync_id full' st'))
     = field "next_sync_id" (out_result (sync_changes last_sync_id full st)).
Proof.
  intros Hb.
  destruct (sync_changes_reports last_sync_id full st) as [-> ->].
  destruct (sync_changes_reports last_sync_id full' st') as [-> ->].
  unfold pending. rewrite Hb. split; reflexivity.
Qed.

(** C7: when nothing changed since the cursor (no resident event has an id
    above [last_sync_id]), two [sync_changes] calls with that
    [last_sync_id], with any tool calls in between as long as none of them
    emits an event, both return empty events and a [next_sync_id] equal to
    the supplied [last_sync_id]; neither call emits anything. *)
Theorem sync_changes_idempotent :
  forall last_sync_id full full' cs st st',
    quiet_since parse_cursor last_sync_id st = true ->
    quiet_run cs (out_state (sync_changes last_sync_id full st)) = Some st' ->
    field "events" (out_result (sync_changes last_sync_id full st))
      = Some (VList [])
    /\ field "next_sync_id" (out_result (sync_changes last_sync_id full st))
       = Some (EventBus.sync_id_value last_sync_id)
    /\ field "events" (out_result (sync_changes last_sync_id full' st'))
       = Some (VList [])
    /\ field "next_sync_id"
         (out_result (sync_changes last_sync_id full' st'))
       = Some (EventBus.sync_id_value last_sync_id)
    /\ out_emitted (sync_changes last_sync_id full st) = []
    /\ out_emitted (sync_changes last_sync_id full' st') = [].
Proof.
  intros last_sync_id full full' cs st st' Hquiet Hrun.
  apply quiet_run_bus in Hrun.
  rewrite (proj1 (sync_changes_reads_only last_sync_id full st)) in Hrun.
  destruct (sync_changes_same_bus last_sync_id full full' st st' Hrun)
    as [Hev Hnext].
  destruct (sync_changes_reports last_sync_id full st) as [Hev1 Hnext1].
  rewrite (quiet_since_pending _ _ Hquiet) in Hev1, Hnext1.
  cbn [map rev] in Hev1, Hnext1.
  rewrite Hev, Hnext.
  split; [exact Hev1|]. split; [exact Hnext1|].
  split; [exact Hev1|]. split; [exact Hnext1|].
  split; apply sync_changes_reads_only.
Qed.

(** C8 (as amended): with the event system imported, the result of
    [sync_changes] has the key ["state"] exactly when [include_full_state]
    is set, and the state is then the notes and the tasks of the current
    stores; with the event system unavailable and [include_full_state] not
    set, the result has ["state"] all the same, as the empty dict. *)
Theorem sync_changes_state_key :
  forall last_sync_id full st,
    match event_manager st, full with
    | Some _, true =>
        field "state" (out_result (sync_changes last_sync_id full st))
          = Some (stores_state st)
        /\ has_key "state" (out_result (sync_changes last_sync_id full st))
           = true
    | Some _, false =>
        field "state" (out_result (sync_changes last_sync_id full st)) = None
        /\ has_key "state" (out_result (sync_changes last_sync_id full st))
           = false
    | None, false =>
        field "state" (out_result (sync_changes last_sync_id full st))
          = Some (VDict [])
        /\ has_key "state" (out_result (sync_changes last_sync_id full st))
           = true
    | None, true => True
    end.
Proof.
  intros last_sync_id full st.
  unfold Server.sync_changes, has_key, Dict.mem.
  destruct (event_manager st) as [b|]; destruct full;
    cbn [out_result field]; try exact I.
  - rewrite DictFacts.get_set_same. split; reflexivity.
  - split; reflexivity.
  - split; reflexivity.
Qed.

End ServerProperties.

(** ** The properties on the concrete configuration *)

(** The first note is stored under a generated id and logged as event 1. *)
Example unified_one_note_log :
  option_map (fun b => map ev_id (log b))
             (event_manager Scenario.unified_one_note) = Some [1]
  /\ Dict.keys (notes_db Scenario.unified_one_note) = ["my-title-1"].
Proof. split; reflexivity. Qed.

(** Writing it resolves the waiter on notes, keeps the waiter on tasks, and
    queues the event for the subscriber. *)
Example watched_one_note_bus :
  option_map (fun b => map w_filter (waiters b))
             (event_manager Scenario.watched_one_note)
    = Some [mkFilter ["task"] 0 0]
  /\ option_map (fun b => map (fun s => map ev_id (sub_queue s))
                              (subscribers b))
                (event_manager Scenario.watched_one_note)
     = Some [[1]].
Proof. split; reflexivity. Qed.

(** A timeout above the cap. *)
Lemma wait_for_updates_timeout_capped_witness :
  event_manager Scenario.unified = Some started_bus
  /\ exists c,
       Server.wait_for_updates None 1000 None "normal" Scenario.unified
         = Server.Forwarded c
       /\ Server.wc_timeout c = 300.
Proof.
  split; [reflexivity|].
  destruct (@wait_for_updates_timeout_capped None 1000 None "normal"
              Scenario.unified started_bus eq_refl)
    as (c & Hc & _ & _ & Hcap & _).
  exists c. split; [exact Hc|]. apply Hcap. lia.
Defined.

(** C1 fails as stated: a negative timeout is forwarded as it is. *)
Lemma wait_for_updates_negative_timeout_forwarded :
  exists c,
    Server.wait_for_updates None (-5) None "normal" Scenario.unified
      = Server.Forwarded c
    /\ Server.wc_timeout c = -5
    /\ ~ (0 <= Server.wc_timeout c <= 300).
Proof.
  eexists. split; [reflexivity|]. cbn. split; [reflexivity|lia].
Qed.

(** Both tools, standalone. *)
Lemma event_system_unavailable_results_witness :
  event_manager Scenario.standalone_one_note = None
  /\ (exists d,
         Server.wait_for_updates (Some ["note"]) 5 None "high"
                                 Scenario.standalone_one_note
           = Server.Returned (VDict d)
         /\ Dict.get "status" d = Some (VStr "error")
         /\ Dict.get "events" d = Some (VList []))
  /\ (exists d,
         out_result (Scenario.sync_changes (Some "7") true
                                           Scenario.standalone_one_note)
           = VDict d
         /\ Dict.get "events" d = Some (VList [])).
Proof.
  split; [reflexivity|].
  destruct (@event_system_unavailable_results
              Scenario.parse_cursor Scenario.bus_snapshot
              (Some ["note"]) 5 None "high" (Some "7") true
              Scenario.standalone_one_note eq_refl)
    as (Hwait & Hsync & _).
  split; [exact Hwait|exact Hsync].
Defined.

(** An unknown label. *)
Lemma wait_for_updates_priority_min_witness :
  event_manager Scenario.unified = Some started_bus
  /\ exists c f,
       Server.wait_for_updates None 30 None "urgent" Scenario.unified
         = Server.Forwarded c
       /\ Server.wc_filters c = Some f
       /\ priority_num (ef_priority_min f) = 1.
Proof.
  split; [reflexivity|].
  destruct (@wait_for_updates_priority_min None 30 None "urgent"
              Scenario.unified started_bus eq_refl)
    as (c & f & Hc & Hf & _ & Hnum).
  exists c, f. split; [exact Hc|]. split; [exact Hf|exact Hnum].
Defined.

(** Deleting an unknown note while a waiter and a subscriber are
    registered. *)
Lemma delete_note_missing_emits_nothing_witness :
  Dict.mem "no-such-note" (notes_db Scenario.watched_one_note) = false
  /\ has_key "error"
       (out_result (Scenario.delete_note "no-such-note"
                                         Scenario.watched_one_note)) = true
  /\ out_emitted (Scenario.delete_note "no-such-note"
                                       Scenario.watched_one_note) = []
  /\ out_state (Scenario.delete_note "no-such-note"
                                     Scenario.watched_one_note)
     = Scenario.watched_one_note.
Proof.
  split; [reflexivity|].
  destruct (@delete_note_missing_emits_nothing
              Scenario.capacity Scenario.queue_bound Scenario.default_priority
              "no-such-note" Scenario.watched_one_note eq_refl)
    as (Herr & Hem & Hst & _).
  split; [exact Herr|]. split; [exact Hem|exact Hst].
Defined.

(** The first note, with the event system imported. *)
Lemma write_note_created_emits_create_witness :
  event_manager Scenario.unified = Some started_bus
  /\ field "action" (out_result (Scenario.run Scenario.first_note
                                              Scenario.unified))
     = Some (VStr "created")
  /\ exists e,
       out_emitted (Scenario.run Scenario.first_note Scenario.unified) = [e]
       /\ ev_type e = Some CREATE
       /\ ev_target e = "note"
       /\ ev_priority e = PEnum HIGH
       /\ ev_id e = 1.
Proof.
  split; [reflexivity|]. split; [reflexivity|].
  destruct (@write_note_created_emits_create
              Scenario.capacity Scenario.queue_bound Scenario.default_priority
              "My Title" "body" "sum" None None "t1" "t2"
              Scenario.unified started_bus eq_refl eq_refl)
    as (e & b' & Hem & Hty & Htg & Hp & _ & Hid & _).
  exists e. split; [exact Hem|]. now repeat split.
Defined.

(** C6 fails as stated: standalone, a successful creating [write_note]
    emits no event. *)
Lemma write_note_standalone_emits_nothing :
  field "success"
    (out_result (Scenario.run Scenario.first_note Scenario.standalone))
    = Some (VBool true)
  /\ field "action"
       (out_result (Scenario.run Scenario.first_note Scenario.standalone))
     = Some (VStr "created")
  /\ Dict.keys (notes_db Scenario.standalone_one_note) = ["my-title-1"]
  /\ out_emitted (Scenario.run Scenario.first_note Scenario.standalone) = [].
Proof. repeat split. Qed.

(** Syncing from the cursor of the only event, before and after calls that
    emit nothing. *)
Lemma sync_changes_idempotent_witness :
  quiet_since Scenario.parse_cursor (Some "1") Scenario.unified_one_note
    = true
  /\ (exists st',
         Scenario.quiet_run Scenario.quiet_calls
           (out_state (Scenario.sync_changes (Some "1") false
                                             Scenario.unified_one_note))
         = Some st'
         /\ Dict.keys (tasks_db st') = ["task_1"]
         /\ field "events"
              (out_result (Scenario.sync_changes (Some "1") true st'))
            = Some (VList [])
         /\ field "next_sync_id"
              (out_result (Scenario.sync_changes (Some "1") true st'))
            = Some (VStr "1"))
  /\ field "events"
       (out_result (Scenario.sync_changes (Some "1") false
                                          Scenario.unified_one_note))
     = Some (VList [])
  /\ field "next_sync_id"
       (out_result (Scenario.sync_changes (Some "1") false
                                          Scenario.unified_one_note))
     = Some (VStr "1").
Proof.
  split; [reflexivity|].
  destruct (@sync_changes_idempotent
              Scenario.capacity Scenario.queue_bound Scenario.parse_cursor
              Scenario.default_priority Scenario.bus_snapshot
              (Some "1") false true Scenario.quiet_calls
              Scenario.unified_one_note _ eq_refl eq_refl)
    as (Hev1 & Hnext1 & Hev2 & Hnext2 & _).
  split; [|split; [exact Hev1|exact Hnext1]].
  eexists. split; [reflexivity|]. split; [reflexivity|].
  split; [exact Hev2|exact Hnext2].
Defined.

(** C8 fails as stated: standalone, the result has ["state"] although
    [include_full_state] is false. *)
Lemma sync_changes_standalone_has_state :
  has_key "state"
    (out_result (Scenario.sync_changes None false
                                       Scenario.standalone_one_note)) = true
  /\ field "state"
       (out_result (Scenario.sync_changes None false
                                          Scenario.standalone_one_note))
     = Some (VDict []).
Proof. split; reflexivity. Qed.

(** Standalone with [include_full_state] set, the code reports the empty
    dict as state although a note is stored: not what its docstring
    ("Include current state of all resources") and its main path say. *)
Example sync_changes_standalone_full_state_empty :
  field "state"
    (out_result (Scenario.sync_changes None true
                                       Scenario.standalone_one_note))
    = Some (VDict [])
  /\ stores_state Scenario.standalone_one_note <> VDict [].
Proof. split; [reflexivity|]. vm_compute. discriminate. Qed.

(** Creating a task while a waiter on tasks and a subscriber are
    registered. *)
Lemma task_calls_emit_nothing_witness :
  Server.task_call (Server.CallTaskCreate "Buy milk" "" "medium" "t5" "t6")
    = true
  /\ out_emitted
       (Scenario.run (Server.CallTaskCreate "Buy milk" "" "medium" "t5" "t6")
                     Scenario.watched_one_note) = []
  /\ event_manager
       (out_state
          (Scenario.run
             (Server.CallTaskCreate "Buy milk" "" "medium" "t5" "t6")
             Scenario.watched_one_note))
     = event_manager Scenario.watched_one_note.
Proof.
  split; [reflexivity|].
  destruct (@task_calls_emit_nothing
              Scenario.capacity Scenario.queue_bound Scenario.parse_cursor
              Scenario.default_priority Scenario.bus_snapshot
              (Server.CallTaskCreate "Buy milk" "" "medium" "t5" "t6")
              Scenario.watched_one_note eq_refl)
    as (_ & Hem & Hbus & _).
  split; [exact Hem|exact Hbus].
Defined.

(** The state after the first note is a state of a run. *)
Lemma unified_one_note_reachable :
  Scenario.reachable Scenario.unified_one_note.
Proof.
  unfold Scenario.reachable, Scenario.unified_one_note, Scenario.run.
  apply Server.reach_call. apply Server.reach_initial.
Defined.

(** Rewriting the first note under its id. *)
Example write_note_existing_reports_updated_example :
  field "action"
    (out_result
       (Scenario.write_note "New Title" "body" "sum" None
                            (Some "my-title-1") "t3" "t4"
                            Scenario.unified_one_note))
    = Some (VStr "updated").
Proof.
  apply (@write_note_existing_reports_updated
           Scenario.capacity Scenario.queue_bound Scenario.parse_cursor
           Scenario.default_priority Scenario.bus_snapshot
           "New Title" "body" "sum" None "my-title-1" "t3" "t4"
           Scenario.unified_one_note unified_one_note_reachable eq_refl).
Qed.

(** ** The stores along a run *)

Lemma str_of_int_inj (a b : Z) : str_of_int a = str_of_int b -> a = b.
Proof.
  unfold str_of_int. intros H.
  assert (Hn : forall z, Z.to_int z <> Decimal.Pos Decimal.Nil
                         /\ Z.to_int z <> Decimal.Neg Decimal.Nil).
  { intros z. split; intros E; pose proof (DecimalZ.of_to z) as H0;
      rewrite E in H0; cbn in H0; subst z; discriminate E. }
  apply (f_equal NilZero.int_of_string) in H.
  rewrite !NilZero.isi in H by apply Hn.
  injection H as H. apply (f_equal Z.of_int) in H.
  now rewrite !DecimalZ.of_to in H.
Qed.

Lemma task_key_inj (a b : Z) : task_key a = task_key b -> a = b.
Proof.
  unfold task_key. cbn. intros [= H]. now apply str_of_int_inj.
Qed.

Lemma mem_get_none (V : Type) (k : string) (d : Dict.t V) :
  Dict.mem k d = false <-> Dict.get k d = None.
Proof.
  unfold Dict.mem. destruct (Dict.get k d); split; congruence.
Qed.

Lemma unique_in_get (V : Type) (k : string) (v : V) (d : Dict.t V) :
  NoDup (Dict.keys d) -> In (k, v) d -> Dict.get k d = Some v.
Proof.
  induction d as [|[k0 v0] d IH]; cbn; [easy|].
  intros Hd [H|H]; inversion Hd as [|? ? Hnot Hrest]; subst.
  - injection H as -> ->. now rewrite String.eqb_refl.
  - destruct (String.eqb k k0) eqn:E; [|now apply IH].
    apply String.eqb_eq in E. subst k0. exfalso. apply Hnot.
    change k with (fst (k, v)). now apply in_map.
Qed.

(** In a store whose records are filed under their own ids, the ids of the
    values are the keys, in order. *)
Lemma keyed_values_ids (V : Type) (id_of : V -> string) (d : Dict.t V) :
  NoDup (Dict.keys d) ->
  (forall k v, Dict.get k d = Some v -> id_of v = k) ->
  map id_of (Dict.values d) = Dict.keys d.
Proof.
  intros Hd Hk.
  assert (H : forall k v, In (k, v) d -> id_of v = k)
    by (intros k v Hin; apply Hk; now apply unique_in_get).
  clear Hd Hk. induction d as [|[k0 v0] d IH]; cbn; [reflexivity|].
  f_equal; [apply H; now left|]. apply IH. intros k v Hin. apply H.
  now right.
Qed.

Section StoreProperties.

Variable capacity : nat.
Variable queue_bound : nat.
Variable parse_cursor : string -> Z.
Variable default_priority : Priority.
Variable bus_snapshot : Bus -> value.

Local Abbreviation write_note :=
  (Server.write_note capacity queue_bound default_priority).
Local Abbreviation delete_note :=
  (Server.delete_note capacity queue_bound default_priority).
Local Abbreviation list_notes :=
  (Server.list_notes capacity queue_bound default_priority).
Local Abbreviation emit_event :=
  (Server.emit_event capacity queue_bound default_priority).
Local Abbreviation run :=
  (Server.run capacity queue_bound parse_cursor default_priority bus_snapshot).
Local Abbreviation reachable :=
  (Server.reachable capacity queue_bound parse_cursor default_priority
                    bus_snapshot).

(** The stores and counters after a decorated tool are those its body
    left. *)
Lemma emit_event_stores st ty tg h p (func : Body) :
  tasks_db (out_state (emit_event st ty tg h p func st))
    = tasks_db (snd (func st))
  /\ task_counter (out_state (emit_event st ty tg h p func st))
     = task_counter (snd (func st))
  /\ notes_db (out_state (emit_event st ty tg h p func st))
     = notes_db (snd (func st))
  /\ note_counter (out_state (emit_event st ty tg h p func st))
     = note_counter (snd (func st)).
Proof.
  unfold Server.emit_event, Server.emit_event_imported, plain.
  destruct (Server.imported st); destruct (func st) as [r st1]; cbn;
    [|now repeat split].
  destruct (Server.succeeded r); [|now repeat split].
  destruct (event_manager st1); now repeat split.
Qed.

Lemma stores_ok_same st st' :
  tasks_db st' = tasks_db st -> task_counter st' = task_counter st ->
  notes_db st' = notes_db st -> note_counter st' = note_counter st ->
  stores_ok st -> stores_ok st'.
Proof.
  intros Ht Htc Hn Hnc [H1 H2 H3 H4 H5 H6 H7].
  constructor; rewrite ?Ht, ?Htc, ?Hn, ?Hnc; assumption.
Qed.

Lemma stores_ok_emit st ty tg h p (func : Body) :
  stores_ok (snd (func st)) ->
  stores_ok (out_state (emit_event st ty tg h p func st)).
Proof.
  destruct (emit_event_stores st ty tg h p func) as (Ht & Htc & Hn & Hnc).
  now apply stores_ok_same.
Qed.

Lemma stores_ok_task_create title description priority now1 now2 st :
  stores_ok st ->
  stores_ok (out_state (Server.task_create title description priority
                                           now1 now2 st)).
Proof.
  intros [H1 H2 H3 H4 H5 H6 H7].
  unfold Server.task_create. rewrite plain_state. cbn [snd].
  fold (task_key (task_counter st + 1)).
  constructor; cbn [tasks_db task_counter notes_db note_counter with_tasks];
    try assumption; try lia.
  - now apply DictFacts.set_unique.
  - intros k t. rewrite DictFacts.get_set.
    destruct (String.eqb k _) eqn:E; [|apply H3].
    apply String.eqb_eq in E. now intros [= <-].
  - intros k. rewrite DictFacts.mem_set.
    destruct (String.eqb k _) eqn:E; cbn.
    + apply String.eqb_eq in E. intros _.
      exists (task_counter st + 1). split; [lia|exact E].
    + intros Hm. destruct (H5 k Hm) as (n & Hn & ->).
      exists n. split; [lia|reflexivity].
Qed.

Lemma stores_ok_task_update task_id status title description priority now st :
  stores_ok st ->
  stores_ok (out_state (Server.task_update task_id status title description
                                           priority now st)).
Proof.
  intros Hok. pose proof Hok as [H1 H2 H3 H4 H5 H6 H7].
  unfold Server.task_update. rewrite plain_state.
  destruct (Dict.get task_id (tasks_db st)) as [old|] eqn:G; [|exact Hok].
  cbn [snd].
  constructor; cbn [tasks_db task_counter notes_db note_counter with_tasks];
    try assumption.
  - now apply DictFacts.set_unique.
  - intros k t. rewrite DictFacts.get_set.
    destruct (String.eqb k task_id) eqn:E; [|apply H3].
    apply String.eqb_eq in E. subst k. intros [= <-]. cbn. now apply H3.
  - intros k. rewrite DictFacts.mem_set.
    destruct (String.eqb k task_id) eqn:E; cbn; [|apply H5].
    apply String.eqb_eq in E. subst k. intros _. apply H5.
    unfold Dict.mem. now rewrite G.
Qed.

Lemma stores_ok_task_delete task_id st :
  stores_ok st -> stores_ok (out_state (Server.task_delete task_id st)).
Proof.
  intros Hok. pose proof Hok as [H1 H2 H3 H4 H5 H6 H7].
  unfold Server.task_delete. rewrite plain_state.
  destruct (Dict.mem task_id (tasks_db st)) eqn:M; [|exact Hok].
  cbn [negb snd].
  constructor; cbn [tasks_db task_counter notes_db note_counter with_tasks];
    try assumption.
  - now apply DictFacts.del_unique.
  - intros k t. destruct (String.eqb k task_id) eqn:E.
    + apply String.eqb_eq in E. subst k.
      now rewrite DictFacts.get_del_same.
    + rewrite DictFacts.get_del_other by exact E. apply H3.
  - intros k Hm. apply H5.
    destruct (Dict.mem k (tasks_db st)) eqn:M'; [reflexivity|].
    now rewrite (@DictFacts.mem_del_false _ k task_id _ M') in Hm.
Qed.

Lemma stores_ok_write_note title content summary tags note_id now1 now2 st :
  stores_ok st ->
  stores_ok (out_state (write_note title content summary tags note_id
                                   now1 now2 st)).
Proof.
  intros [H1 H2 H3 H4 H5 H6 H7].
  unfold Server.write_note. apply stores_ok_emit.
  unfold Server.write_note_body.
  assert (Hc : note_counter st
               <= snd (Server.write_note_id title note_id st)).
  { unfold Server.write_note_id.
    destruct note_id as [nid|]; [destruct (truthy (Some nid))|];
      cbn [snd]; lia. }
  destruct (Server.write_note_id title note_id st) as [nid counter].
  cbn [snd] in *.
  constructor; cbn [tasks_db task_counter notes_db note_counter with_notes];
    try assumption; try lia.
  - now apply DictFacts.set_unique.
  - intros k n. rewrite DictFacts.get_set.
    destruct (String.eqb k nid) eqn:E; [|apply H4].
    apply String.eqb_eq in E. now intros [= <-].
Qed.

Lemma stores_ok_delete_note note_id st :
  stores_ok st -> stores_ok (out_state (delete_note note_id st)).
Proof.
  intros Hok. pose proof Hok as [H1 H2 H3 H4 H5 H6 H7].
  unfold Server.delete_note. apply stores_ok_emit.
  unfold Server.delete_note_body.
  destruct (Dict.mem note_id (notes_db st)) eqn:M; [|exact Hok].
  cbn [negb snd].
  constructor; cbn [tasks_db task_counter notes_db note_counter with_notes];
    try assumption.
  - now apply DictFacts.del_unique.
  - intros k n. destruct (String.eqb k note_id) eqn:E.
    + apply String.eqb_eq in E. subst k.
      now rewrite DictFacts.get_del_same.
    + rewrite DictFacts.get_del_other by exact E. apply H4.
Qed.

Lemma stores_ok_run c st : stores_ok st -> stores_ok (out_state (run c st)).
Proof.
  intros Hok. destruct c; cbn [Server.run].
  - now apply stores_ok_task_create.
  - unfold Server.task_list. rewrite plain_state. cbn.
    now destruct status.
  - now apply stores_ok_task_update.
  - now apply stores_ok_task_delete.
  - unfold Server.list_notes. now apply stores_ok_emit.
  - unfold Server.get_note. rewrite plain_state.
    now destruct (Dict.get note_id (notes_db st)).
  - now apply stores_ok_write_note.
  - now apply stores_ok_delete_note.
  - now rewrite (proj1 (sync_changes_reads_only parse_cursor bus_snapshot
                          last_sync_id include_full_state st)).
Qed.

Lemma reachable_ok : forall st, reachable st -> stores_ok st.
Proof.
  induction 1 as [em|st c Hst IH|st b b' Hst IH Hb].
  - constructor; cbn; try lia; try constructor; try discriminate.
  - now apply stores_ok_run.
  - revert IH. now apply stores_ok_same.
Qed.

(** ** Tasks *)

Lemma task_key_fresh st :
  stores_ok st ->
  Dict.mem (task_key (task_counter st + 1)) (tasks_db st) = false.
Proof.
  intros Hok.
  destruct (Dict.mem (task_key (task_counter st + 1)) (tasks_db st)) eqn:M;
    [|reflexivity].
  destruct (tasks_issued Hok _ M) as (n & Hn & Hkey).
  apply task_key_inj in Hkey. lia.
Qed.

(** What [task_create] does in a well-shaped store. *)
Lemma task_create_outcome title description priority now1 now2 st :
  stores_ok st ->
  let task := mkTask (task_key (task_counter st + 1)) title description
                     priority "pending" now1 now2 in
  out_result (Server.task_create title description priority now1 now2 st)
    = task_value task
  /\ tasks_db (out_state (Server.task_create title description priority
                                             now1 now2 st))
     = (tasks_db st ++ [(task_id_of task, task)])%list
  /\ task_counter (out_state (Server.task_create title description
                                                 priority now1 now2 st))
     = task_counter st + 1.
Proof.
  intros Hok task.
  unfold Server.task_create. rewrite plain_result, plain_state.
  cbn [fst snd task_id_of tasks_db task_counter with_tasks].
  fold (task_key (task_counter st + 1)).
  split; [reflexivity|]. split; [|reflexivity].
  apply DictFacts.set_absent. now apply task_key_fresh.
Qed.

(** X2: In every state of a run, [task_create] never overwrites a task: the id
    [task_<counter+1>] it issues is not yet in [tasks_db], the new task (with
    status ["pending"]) is returned and appended after the existing ones, and
    the counter moves on by one. *)
Theorem task_create_adds_fresh_task :
  forall title description priority now1 now2 st,
    reachable st ->
    exists task,
      task = mkTask (task_key (task_counter st + 1)) title description
                    priority "pending" now1 now2
      /\ out_result (Server.task_create title description priority now1 now2
                                        st) = task_value task
      /\ Dict.mem (task_id_of task) (tasks_db st) = false
      /\ tasks_db (out_state (Server.task_create title description priority
                                                 now1 now2 st))
         = (tasks_db st ++ [(task_id_of task, task)])%list
      /\ task_counter (out_state (Server.task_create title description
                                                     priority now1 now2 st))
         = task_counter st + 1.
Proof.
  intros title description priority now1 now2 st Hreach.
  pose proof (reachable_ok Hreach) as Hok.
  destruct (task_create_outcome title description priority now1 now2 Hok)
    as (Hres & Hdb & Hc).
  eexists. split; [reflexivity|]. split; [exact Hres|].
  split; [now apply task_key_fresh|]. split; [exact Hdb|exact Hc].
Qed.

(** X3: [task_update] and [task_delete] for an id that is not in [tasks_db]
    return [{"error": "Task <id> not found"}] and change nothing. *)
Theorem task_update_delete_missing :
  forall task_id status title description priority now st,
    Dict.mem task_id (tasks_db st) = false ->
    out_result (Server.task_update task_id status title description priority
                                   now st)
      = VDict [("error", VStr ("Task " ++ task_id ++ " not found"))]
    /\ out_state (Server.task_update task_id status title description
                                     priority now st) = st
    /\ out_result (Server.task_delete task_id st)
       = VDict [("error", VStr ("Task " ++ task_id ++ " not found"))]
    /\ out_state (Server.task_delete task_id st) = st.
Proof.
  intros task_id status title description priority now st Hmem.
  unfold Server.task_update, Server.task_delete.
  rewrite !plain_result, !plain_state, Hmem.
  apply mem_get_none in Hmem. rewrite Hmem. now repeat split.
Qed.

(** X4: [task_update] of an existing task stores what it returns, keeps the
    task's id, creation time and place in the store, stamps [updated_at],
    leaves every other task and the counter alone, and keeps each field whose
    argument is [None] or the empty string. *)
Theorem task_update_keeps_identity :
  forall task_id status title description priority now st old,
    Dict.get task_id (tasks_db st) = Some old ->
    exists new,
      out_result (Server.task_update task_id status title description
                                     priority now st) = task_value new
      /\ Dict.get task_id
           (tasks_db (out_state (Server.task_update task_id status title
                                   description priority now st)))
         = Some new
      /\ task_id_of new = task_id_of old
      /\ task_created_at new = task_created_at old
      /\ task_updated_at new = now
      /\ (truthy status = false -> task_status new = task_status old)
      /\ (truthy title = false -> task_title new = task_title old)
      /\ (truthy description = false ->
          task_description new = task_description old)
      /\ (truthy priority = false -> task_priority new = task_priority old)
      /\ Dict.keys
           (tasks_db (out_state (Server.task_update task_id status title
                                   description priority now st)))
         = Dict.keys (tasks_db st)
      /\ (forall k,
             String.eqb k task_id = false ->
             Dict.get k
               (tasks_db (out_state (Server.task_update task_id status title
                                       description priority now st)))
             = Dict.get k (tasks_db st))
      /\ task_counter (out_state (Server.task_update task_id status title
                                    description priority now st))
         = task_counter st.
Proof.
  intros task_id status title description priority now st old Hget.
  assert (Hkeep : forall new o, truthy new = false ->
                                Server.or_keep new o = o).
  { intros [s|] o; cbn; [|reflexivity]. now intros ->. }
  unfold Server.task_update. rewrite plain_result, plain_state, Hget.
  cbn [fst snd tasks_db task_counter with_tasks].
  eexists. split; [reflexivity|].
  split; [apply DictFacts.get_set_same|].
  cbn [task_id_of task_created_at task_updated_at task_status task_title
       task_description task_priority].
  repeat (split; [solve [reflexivity | now apply Hkeep]|]).
  split; [|split; [|reflexivity]].
  - apply DictFacts.set_present. unfold Dict.mem. now rewrite Hget.
  - intros k Hk. now apply DictFacts.get_set_other.
Qed.

(** X5: In every state of a run, [task_delete] of an existing task reports
    success and removes exactly that task: the id is gone, every other task
    is as before, the counter is not rolled back, and deleting the same id
    again is an error that changes nothing. *)
Theorem task_delete_removes :
  forall task_id st,
    reachable st ->
    Dict.mem task_id (tasks_db st) = true ->
    field "success" (out_result (Server.task_delete task_id st))
      = Some (VBool true)
    /\ Dict.mem task_id (tasks_db (out_state (Server.task_delete task_id st)))
       = false
    /\ (forall k,
           String.eqb k task_id = false ->
           Dict.get k (tasks_db (out_state (Server.task_delete task_id st)))
           = Dict.get k (tasks_db st))
    /\ S (List.length
            (tasks_db (out_state (Server.task_delete task_id st))))
       = List.length (tasks_db st)
    /\ task_counter (out_state (Server.task_delete task_id st))
       = task_counter st
    /\ has_key "error"
         (out_result
            (Server.task_delete task_id
               (out_state (Server.task_delete task_id st)))) = true
    /\ out_state
         (Server.task_delete task_id
            (out_state (Server.task_delete task_id st)))
       = out_state (Server.task_delete task_id st).
Proof.
  intros task_id st Hreach Hmem.
  pose proof (tasks_unique (reachable_ok Hreach)) as Huniq.
  assert (Hgone : Dict.mem task_id (Dict.del task_id (tasks_db st)) = false).
  { apply mem_get_none. now apply DictFacts.get_del_same. }
  assert (Hst : out_state (Server.task_delete task_id st)
                = with_tasks st (Dict.del task_id (tasks_db st))
                             (task_counter st)).
  { unfold Server.task_delete. now rewrite plain_state, Hmem. }
  rewrite Hst. cbn [tasks_db task_counter with_tasks].
  split; [unfold Server.task_delete; now rewrite plain_result, Hmem|].
  split; [exact Hgone|].
  split; [intros k Hk; now apply DictFacts.get_del_other|].
  split; [now apply DictFacts.del_length|].
  split; [reflexivity|].
  unfold Server.task_delete. rewrite plain_result, plain_state.
  cbn [tasks_db with_tasks]. rewrite Hgone. split; reflexivity.
Qed.

(** X6: In every state of a run, a task just created is listed last by
    [task_list()], and last among the pending ones by
    [task_list("pending")]; an empty-string status filters nothing. *)
Theorem task_list_after_create :
  forall title description priority now1 now2 st,
    reachable st ->
    exists before pending_before created,
      out_result (Server.task_list None st) = VList before
      /\ out_result (Server.task_list (Some "pending") st)
         = VList pending_before
      /\ out_result (Server.task_create title description priority now1 now2
                                        st) = created
      /\ out_result
           (Server.task_list None
              (out_state (Server.task_create title description priority
                                             now1 now2 st)))
         = VList (before ++ [created])
      /\ out_result
           (Server.task_list (Some "pending")
              (out_state (Server.task_create title description priority
                                             now1 now2 st)))
         = VList (pending_before ++ [created])
      /\ out_result
           (Server.task_list (Some "")
              (out_state (Server.task_create title description priority
                                             now1 now2 st)))
         = VList (before ++ [created]).
Proof.
  intros title description priority now1 now2 st Hreach.
  destruct (task_create_outcome title description priority now1 now2
              (reachable_ok Hreach)) as (Hres & Hdb & _).
  do 3 eexists. split; [|split; [|split; [exact Hres|]]].
  - unfold Server.task_list. rewrite plain_result. reflexivity.
  - unfold Server.task_list. rewrite plain_result. reflexivity.
  - unfold Server.task_list. rewrite !plain_result. cbn [fst truthy].
    rewrite Hdb.
    change (negb ("pending" =? "")%string) with true.
    change (negb ("" =? "")%string) with false. cbv iota.
    unfold Dict.values. rewrite !map_app, filter_app, !map_app.
    now repeat split.
Qed.

(** ** Notes *)

(** What [write_note] returns and stores, with or without the event
    system. *)
Lemma write_note_outcome title content summary tags note_id now1 now2 st :
  let nid := fst (Server.write_note_id title note_id st) in
  let note :=
    mkNote nid title summary (tags_or_empty tags) content
           (match Dict.get nid (notes_db st) with
            | Some old => note_created_at old
            | None => now1
            end)
           now2 in
  out_result (write_note title content summary tags note_id now1 now2 st)
    = VDict [("success", VBool true);
             ("action",
              VStr (if Dict.mem nid (notes_db st)
                    then "updated" else "created"));
             ("note", note_value note)]
  /\ notes_db (out_state (write_note title content summary tags note_id
                                     now1 now2 st))
     = Dict.set nid note (notes_db st)
  /\ note_counter (out_state (write_note title content summary tags note_id
                                         now1 now2 st))
     = snd (Server.write_note_id title note_id st)
  /\ tasks_db (out_state (write_note title content summary tags note_id
                                     now1 now2 st))
     = tasks_db st.
Proof.
  cbn zeta. unfold Server.write_note. rewrite emit_event_result.
  destruct (emit_event_stores st
              (Server.EventType_or_None st CREATE) "note"
              (Some "navigate_to") (Some (Server.EventPriority_or st HIGH 2))
              (Server.write_note_body title content summary tags note_id
                                      now1 now2))
    as (-> & _ & -> & ->).
  unfold Server.write_note_body.
  destruct (Server.write_note_id title note_id st) as [nid counter].
  cbn [fst snd notes_db note_counter tasks_db with_notes].
  now repeat split.
Qed.

Lemma delete_note_outcome note_id st :
  out_result (delete_note note_id st)
    = fst (Server.delete_note_body note_id st)
  /\ notes_db (out_state (delete_note note_id st))
     = (if Dict.mem note_id (notes_db st)
        then Dict.del note_id (notes_db st) else notes_db st)
  /\ note_counter (out_state (delete_note note_id st)) = note_counter st
  /\ tasks_db (out_state (delete_note note_id st)) = tasks_db st.
Proof.
  unfold Server.delete_note. rewrite emit_event_result.
  destruct (emit_event_stores st
              (Server.EventType_or_None st DELETE) "note" None
              (Some (Server.EventPriority_or st HIGH 2))
              (Server.delete_note_body note_id))
    as (-> & _ & -> & ->).
  unfold Server.delete_note_body.
  destruct (Dict.mem note_id (notes_db st)); now repeat split.
Qed.

(** X7: A note just written can be read back: [get_note] under the id of the
    returned note returns that very note, which carries the title, summary,
    content and tags given ([[]] for no tags) and [updated_at] of the call;
    a non-empty [note_id] given by the caller is the id used. *)
Theorem write_note_then_get_note :
  forall title content summary tags note_id now1 now2 st,
    exists note,
      field "note"
        (out_result (write_note title content summary tags note_id
                                now1 now2 st))
        = Some (note_value note)
      /\ out_result
           (Server.get_note (note_id_of note)
              (out_state (write_note title content summary tags note_id
                                     now1 now2 st)))
         = note_value note
      /\ note_title note = title
      /\ note_summary note = summary
      /\ note_content note = content
      /\ note_tags note = tags_or_empty tags
      /\ note_updated_at note = now2
      /\ (truthy note_id = true -> note_id = Some (note_id_of note)).
Proof.
  intros title content summary tags note_id now1 now2 st.
  destruct (write_note_outcome title content summary tags note_id now1 now2
              st) as (Hres & Hdb & _).
  eexists. rewrite Hres. split; [reflexivity|].
  unfold Server.get_note. rewrite plain_result, Hdb.
  cbn [note_id_of]. rewrite DictFacts.get_set_same.
  split; [reflexivity|]. repeat (split; [reflexivity|]).
  unfold Server.write_note_id. destruct note_id as [nid|]; [|discriminate].
  now intros ->.
Qed.

(** X8: Writing under the non-empty id of an existing note reports ["updated"]
    and replaces the note where it stands: [created_at] is the old one, the
    set and order of ids, every other note and [note_counter] are
    unchanged. *)
Theorem write_note_update_in_place :
  forall title content summary tags nid now1 now2 st old,
    String.eqb nid "" = false ->
    Dict.get nid (notes_db st) = Some old ->
    exists note,
      out_result (write_note title content summary tags (Some nid)
                             now1 now2 st)
        = VDict [("success", VBool true); ("action", VStr "updated");
                 ("note", note_value note)]
      /\ Dict.get nid
           (notes_db (out_state (write_note title content summary tags
                                            (Some nid) now1 now2 st)))
         = Some note
      /\ note_id_of note = nid
      /\ note_created_at note = note_created_at old
      /\ Dict.keys
           (notes_db (out_state (write_note title content summary tags
                                            (Some nid) now1 now2 st)))
         = Dict.keys (notes_db st)
      /\ (forall k,
             String.eqb k nid = false ->
             Dict.get k
               (notes_db (out_state (write_note title content summary tags
                                                (Some nid) now1 now2 st)))
             = Dict.get k (notes_db st))
      /\ note_counter (out_state (write_note title content summary tags
                                             (Some nid) now1 now2 st))
         = note_counter st.
Proof.
  intros title content summary tags nid now1 now2 st old Hne Hget.
  destruct (write_note_outcome title content summary tags (Some nid)
              now1 now2 st) as (Hres & Hdb & Hc & _).
  assert (Hid : Server.write_note_id title (Some nid) st
                = (nid, note_counter st)).
  { unfold Server.write_note_id. cbn. now rewrite Hne. }
  rewrite Hid in *. cbn [fst snd] in *.
  assert (Hmem : Dict.mem nid (notes_db st) = true)
    by (unfold Dict.mem; now rewrite Hget).
  rewrite Hmem, Hget in *.
  eexists. split; [exact Hres|]. rewrite Hdb.
  split; [apply DictFacts.get_set_same|].
  split; [reflexivity|]. split; [reflexivity|].
  split; [now apply DictFacts.set_present|].
  split; [|exact Hc].
  intros k Hk. now apply DictFacts.get_set_other.
Qed.

Lemma prefix_n_length (n : nat) (s : string) :
  (String.length (prefix_n n s) <= n)%nat.
Proof.
  unfold prefix_n. revert s. induction n as [|n IH]; intros [|c s]; cbn;
    try lia.
  specialize (IH s). lia.
Qed.

Lemma prefix_n_chars (P : ascii -> bool) (n : nat) (s : string) :
  forallb P (list_ascii_of_string s) = true ->
  forallb P (list_ascii_of_string (prefix_n n s)) = true.
Proof.
  unfold prefix_n. revert s. induction n as [|n IH]; intros [|c s]; cbn;
    try reflexivity.
  intros H. apply andb_true_iff in H. destruct H as [Hc Hs].
  rewrite Hc. now apply IH.
Qed.

Lemma lowered_char_clean (c : ascii) :
  slug_char (if Ascii.eqb (lower_ascii c) " "%char
             then "-"%char else lower_ascii c) = true.
Proof.
  destruct c as [[] [] [] [] [] [] [] []]; reflexivity.
Qed.

Lemma slug_chars (title : string) :
  forallb slug_char (list_ascii_of_string (slug title)) = true.
Proof.
  unfold slug. apply prefix_n_chars.
  induction title as [|c s IH]; cbn; [reflexivity|].
  now rewrite lowered_char_clean, IH.
Qed.

(** X9: For an ASCII title: without a usable [note_id] ([None] or the empty
    string), [write_note]
    files the note under [<slug>-<note_counter+1>] and advances the counter
    by one; the slug, made from the title, has at most 30 characters, none of
    them a space or an upper-case ASCII letter.  With a non-empty [note_id]
    the counter is left alone. *)
Theorem write_note_generated_id :
  forall title content summary tags note_id now1 now2 st,
    ascii_only title = true ->
    (String.length (slug title) <= 30)%nat
    /\ forallb slug_char (list_ascii_of_string (slug title)) = true
    /\ (truthy note_id = false ->
        Dict.mem (slug title ++ "-" ++ str_of_int (note_counter st + 1))
                 (notes_db (out_state (write_note title content summary tags
                                                  note_id now1 now2 st)))
          = true
        /\ field "note"
             (out_result (write_note title content summary tags note_id
                                     now1 now2 st))
           = Some (note_value
                     (mkNote
                        (slug title ++ "-"
                           ++ str_of_int (note_counter st + 1))
                        title summary (tags_or_empty tags) content
                        (match
                            Dict.get
                              (slug title ++ "-"
                                 ++ str_of_int (note_counter st + 1))
                              (notes_db st)
                          with
                          | Some old => note_created_at old
                          | None => now1
                          end)
                        now2))
        /\ note_counter (out_state (write_note title content summary tags
                                               note_id now1 now2 st))
           = note_counter st + 1)
    /\ (truthy note_id = true ->
        note_counter (out_state (write_note title content summary tags
                                            note_id now1 now2 st))
        = note_counter st).
Proof.
  intros title content summary tags note_id now1 now2 st _.
  split; [apply prefix_n_length|]. split; [apply slug_chars|].
  destruct (write_note_outcome title content summary tags note_id now1 now2
              st) as (Hres & Hdb & Hc & _).
  rewrite Hres, Hdb, Hc. cbn [field Dict.get String.eqb Ascii.eqb Bool.eqb].
  split; intros Ht.
  - assert (Hid : Server.write_note_id title note_id st
                  = (slug title ++ "-" ++ str_of_int (note_counter st + 1),
                     note_counter st + 1)).
    { unfold Server.write_note_id, slug.
      destruct note_id as [nid|]; [now rewrite Ht|reflexivity]. }
    rewrite Hid. cbn [fst snd].
    split; [|split; reflexivity].
    rewrite DictFacts.mem_set. now rewrite String.eqb_refl.
  - unfold Server.write_note_id. destruct note_id as [nid|]; [|discriminate].
    now rewrite Ht.
Qed.

(** X10: In every state of a run, [delete_note] of an existing note reports
    success and removes exactly that note: [get_note] then answers with the
    not-found error, every other note is as before, and deleting the same
    id again is an error that leaves the notes alone. *)
Theorem delete_note_removes :
  forall note_id st,
    reachable st ->
    Dict.mem note_id (notes_db st) = true ->
    field "success" (out_result (delete_note note_id st)) = Some (VBool true)
    /\ out_result (Server.get_note note_id
                                   (out_state (delete_note note_id st)))
       = VDict [("error",
                 VStr ("Note with ID '" ++ note_id ++ "' not found"))]
    /\ (forall k,
           String.eqb k note_id = false ->
           Dict.get k (notes_db (out_state (delete_note note_id st)))
           = Dict.get k (notes_db st))
    /\ S (List.length (notes_db (out_state (delete_note note_id st))))
       = List.length (notes_db st)
    /\ has_key "error"
         (out_result (delete_note note_id
                                  (out_state (delete_note note_id st))))
       = true
    /\ notes_db (out_state (delete_note note_id
                                        (out_state (delete_note note_id st))))
       = notes_db (out_state (delete_note note_id st)).
Proof.
  intros note_id st Hreach Hmem.
  pose proof (notes_unique (reachable_ok Hreach)) as Huniq.
  assert (Hgone : Dict.get note_id (Dict.del note_id (notes_db st)) = None)
    by now apply DictFacts.get_del_same.
  destruct (delete_note_outcome note_id st) as (Hres & Hdb & _).
  destruct (delete_note_outcome note_id (out_state (delete_note note_id st)))
    as (Hres2 & Hdb2 & _).
  rewrite Hres2, Hdb2, Hres, Hdb, Hmem.
  unfold Server.get_note, Server.delete_note_body.
  rewrite plain_result, Hdb, Hmem. cbn [negb fst].
  unfold Dict.mem. rewrite Hgone. cbn [negb fst].
  split; [reflexivity|]. split; [reflexivity|].
  split; [intros k Hk; now apply DictFacts.get_del_other|].
  split; [now apply DictFacts.del_length|]. split; reflexivity.
Qed.

(** X11: Creating a note and then deleting it under the id it was given puts
    [notes_db] back exactly as it was; [note_counter] is not rolled back. *)
Theorem write_note_then_delete_note :
  forall title content summary tags note_id now1 now2 st nid,
    nid = fst (Server.write_note_id title note_id st) ->
    Dict.mem nid (notes_db st) = false ->
    field "action"
      (out_result (write_note title content summary tags note_id
                              now1 now2 st))
      = Some (VStr "created")
    /\ field "success"
         (out_result
            (delete_note nid
               (out_state (write_note title content summary tags note_id
                                      now1 now2 st))))
       = Some (VBool true)
    /\ notes_db
         (out_state
            (delete_note nid
               (out_state (write_note title content summary tags note_id
                                      now1 now2 st))))
       = notes_db st
    /\ note_counter
         (out_state
            (delete_note nid
               (out_state (write_note title content summary tags note_id
                                      now1 now2 st))))
       = snd (Server.write_note_id title note_id st)
    /\ note_counter st <= snd (Server.write_note_id title note_id st)
    /\ (truthy note_id = false ->
        snd (Server.write_note_id title note_id st) = note_counter st + 1).
Proof.
  intros title content summary tags note_id now1 now2 st nid -> Hmem.
  destruct (write_note_outcome title content summary tags note_id now1 now2
              st) as (Hres & Hdb & Hc & _).
  destruct (delete_note_outcome
              (fst (Server.write_note_id title note_id st))
              (out_state (write_note title content summary tags note_id
                                     now1 now2 st)))
    as (Hres2 & Hdb2 & Hc2 & _).
  rewrite Hres2, Hdb2, Hc2, Hres, Hdb, Hc, Hmem.
  unfold Server.delete_note_body. rewrite Hdb.
  rewrite DictFacts.mem_set, String.eqb_refl. cbn [orb negb fst field].
  split; [reflexivity|]. split; [reflexivity|].
  split; [now apply DictFacts.del_set_absent|]. split; [reflexivity|].
  unfold Server.write_note_id.
  destruct note_id as [n|]; [destruct (truthy (Some n)) eqn:T|];
    cbn [snd]; split; try lia; try discriminate; reflexivity.
Qed.

Lemma list_notes_outcome tags st :
  out_result (list_notes tags st) = fst (Server.list_notes_body tags st)
  /\ notes_db (out_state (list_notes tags st)) = notes_db st
  /\ note_counter (out_state (list_notes tags st)) = note_counter st
  /\ tasks_db (out_state (list_notes tags st)) = tasks_db st.
Proof.
  unfold Server.list_notes. rewrite emit_event_result.
  destruct (emit_event_stores st
              (Server.EventType_or_None st LIST) "note" None None
              (Server.list_notes_body tags))
    as (-> & _ & -> & ->).
  now repeat split.
Qed.

(** X12: In every state of a run, [list_notes()] lists every stored note
    once, by its key and in store order, and [count] is their number; an
    empty tag list filters nothing; the stores are not changed. *)
Theorem list_notes_lists_all :
  forall st,
    reachable st ->
    exists shown,
      out_result (list_notes None st)
        = VDict [("count", VInt (Z.of_nat (List.length (notes_db st))));
                 ("notes", VList shown)]
      /\ map (field "id") shown
         = map (fun k => Some (VStr k)) (Dict.keys (notes_db st))
      /\ List.length shown = List.length (notes_db st)
      /\ out_result (list_notes (Some []) st) = out_result (list_notes None st)
      /\ notes_db (out_state (list_notes None st)) = notes_db st
      /\ tasks_db (out_state (list_notes None st)) = tasks_db st.
Proof.
  intros st Hreach. pose proof (reachable_ok Hreach) as Hok.
  destruct (list_notes_outcome None st) as (Hres & Hdb & _ & Ht).
  destruct (list_notes_outcome (Some []) st) as (Hres' & _).
  rewrite Hres, Hres', Hdb, Ht. unfold Server.list_notes_body. cbn [fst].
  eexists. split; [|split; [|split; [|now repeat split]]].
  - unfold Dict.values. rewrite length_map. reflexivity.
  - rewrite map_map. cbn [field Dict.get String.eqb Ascii.eqb Bool.eqb].
    rewrite <- (@keyed_values_ids _ note_id_of (notes_db st)
                  (notes_unique Hok) (notes_keyed Hok)).
    unfold Dict.values. now rewrite !map_map.
  - unfold Dict.values. now rewrite !length_map.
Qed.

Lemma in_values_set (V : Type) (k : string) (v : V) (d : Dict.t V) :
  In v (Dict.values (Dict.set k v d)).
Proof.
  induction d as [|[k0 v0] d IH]; cbn; [now left|].
  destruct (String.eqb k k0); cbn; [now left|now right].
Qed.

Lemma string_in_In (s : string) (l : list string) :
  In s l -> string_in s l = true.
Proof.
  intros H. unfold string_in. apply existsb_exists. exists s.
  split; [exact H|apply String.eqb_refl].
Qed.

(** X13: A note written with tags is found by any one of them: [list_notes([t])]
    on the state after the write shows the note just written, for every tag
    [t] it was given, and [count] is the number of notes shown. *)
Theorem written_note_listed_by_tag :
  forall title content summary ts note_id now1 now2 st t,
    In t ts ->
    exists note shown,
      field "note"
        (out_result (write_note title content summary (Some ts) note_id
                                now1 now2 st))
        = Some (note_value note)
      /\ out_result
           (list_notes (Some [t])
              (out_state (write_note title content summary (Some ts) note_id
                                     now1 now2 st)))
         = VDict [("count", VInt (Z.of_nat (List.length shown)));
                  ("notes", VList shown)]
      /\ In (note_overview note) shown.
Proof.
  intros title content summary ts note_id now1 now2 st t Hin.
  destruct (write_note_outcome title content summary (Some ts) note_id
              now1 now2 st) as (Hres & Hdb & _).
  destruct (list_notes_outcome (Some [t])
              (out_state (write_note title content summary (Some ts) note_id
                                     now1 now2 st))) as (Hlist & _).
  rewrite Hlist, Hres. unfold Server.list_notes_body. rewrite Hdb.
  cbn [fst field Dict.get String.eqb Ascii.eqb Bool.eqb].
  do 2 eexists. split; [reflexivity|]. split.
  - rewrite length_map. reflexivity.
  - apply (in_map note_overview). apply filter_In. split.
    + apply in_values_set.
    + cbn [note_tags tags_or_empty existsb].
      now rewrite (string_in_In _ _ Hin).
Qed.

(** X14: In every state of a run, [get_note] of a stored id returns the note
    filed there, whose own ["id"] is the id asked for; of an unknown id, the
    not-found error.  Either way it changes nothing and emits nothing. *)
Theorem get_note_returns_filed_note :
  forall note_id st,
    reachable st ->
    (forall n,
        Dict.get note_id (notes_db st) = Some n ->
        out_result (Server.get_note note_id st) = note_value n
        /\ field "id" (out_result (Server.get_note note_id st))
           = Some (VStr note_id)
        /\ has_key "error" (out_result (Server.get_note note_id st)) = false)
    /\ (Dict.mem note_id (notes_db st) = false ->
        out_result (Server.get_note note_id st)
        = VDict [("error",
                  VStr ("Note with ID '" ++ note_id ++ "' not found"))])
    /\ out_state (Server.get_note note_id st) = st
    /\ out_emitted (Server.get_note note_id st) = [].
Proof.
  intros note_id st Hreach. pose proof (reachable_ok Hreach) as Hok.
  unfold Server.get_note. rewrite plain_result, plain_state, plain_emitted.
  split; [|split; [|split; [|reflexivity]]].
  - intros n Hget. rewrite Hget. cbn [fst].
    split; [reflexivity|]. split; [|reflexivity].
    cbn. now rewrite (notes_keyed Hok _ Hget).
  - intros Hmem. apply mem_get_none in Hmem. now rewrite Hmem.
  - now destruct (Dict.get note_id (notes_db st)).
Qed.

Lemma emit_event_flag st ty tg h p (func : Body) :
  event_manager (snd (func st)) = event_manager st ->
  Server.imported (out_state (emit_event st ty tg h p func st))
    = Server.imported st.
Proof.
  unfold Server.emit_event, Server.emit_event_imported, plain,
    Server.imported.
  destruct (event_manager st) as [b|]; cbv beta;
    destruct (func st) as [r st1]; cbn [snd]; intros Hb.
  - destruct (Server.succeeded r); rewrite ?Hb; cbn; [reflexivity|].
    now rewrite Hb.
  - cbn. now rewrite Hb.
Qed.

(** No tool call turns the event system on or off: whether it was imported
    is the same after any call as before it. *)
Theorem event_system_never_toggles :
  forall c st, Server.imported (out_state (run c st)) = Server.imported st.
Proof.
  intros c st. destruct c; cbn [Server.run].
  - unfold Server.task_create. now rewrite plain_state.
  - unfold Server.task_list. rewrite plain_state. cbn. now destruct status.
  - unfold Server.task_update. rewrite plain_state.
    now destruct (Dict.get task_id (tasks_db st)).
  - unfold Server.task_delete. rewrite plain_state.
    now destruct (Dict.mem task_id (tasks_db st)).
  - unfold Server.list_notes. now apply emit_event_flag.
  - unfold Server.get_note. rewrite plain_state.
    now destruct (Dict.get note_id (notes_db st)).
  - unfold Server.write_note. apply emit_event_flag.
    apply write_note_body_bus.
  - unfold Server.delete_note. apply emit_event_flag.
    unfold Server.delete_note_body.
    now destruct (Dict.mem note_id (notes_db st)).
  - now rewrite (proj1 (sync_changes_reads_only parse_cursor bus_snapshot
                          last_sync_id include_full_state st)).
Qed.

(** X15: No tool call lowers [task_counter] or [note_counter], and no call other
    than [task_create] and [write_note] changes either. *)
Theorem counters_never_decrease :
  forall c st,
    task_counter st <= task_counter (out_state (run c st))
    /\ note_counter st <= note_counter (out_state (run c st))
    /\ (match c with
        | Server.CallTaskCreate _ _ _ _ _ => True
        | Server.CallWriteNote _ _ _ _ _ _ _ => True
        | _ => task_counter (out_state (run c st)) = task_counter st
               /\ note_counter (out_state (run c st)) = note_counter st
        end).
Proof.
  intros c st. destruct c; cbn [Server.run].
  - unfold Server.task_create. rewrite plain_state. cbn. lia.
  - unfold Server.task_list. rewrite plain_state. cbn.
    destruct status; cbn; lia.
  - unfold Server.task_update. rewrite plain_state.
    destruct (Dict.get task_id (tasks_db st)); cbn; lia.
  - unfold Server.task_delete. rewrite plain_state.
    destruct (Dict.mem task_id (tasks_db st)); cbn; lia.
  - destruct (list_notes_outcome tags st) as (_ & _ & Hn & _).
    unfold Server.list_notes in *.
    destruct (emit_event_stores st (Server.EventType_or_None st LIST) "note"
                None None (Server.list_notes_body tags))
      as (_ & -> & _ & ->).
    cbn. lia.
  - unfold Server.get_note. rewrite plain_state.
    destruct (Dict.get note_id (notes_db st)); cbn; lia.
  - destruct (write_note_outcome title content summary tags note_id
                now1 now2 st) as (_ & _ & -> & _).
    unfold Server.write_note.
    destruct (emit_event_stores st (Server.EventType_or_None st CREATE)
                "note" (Some "navigate_to")
                (Some (Server.EventPriority_or st HIGH 2))
                (Server.write_note_body title content summary tags note_id
                                        now1 now2))
      as (_ & -> & _ & _).
    unfold Server.write_note_body, Server.write_note_id.
    destruct note_id as [nid|]; [destruct (truthy (Some nid))|];
      cbn; lia.
  - destruct (delete_note_outcome note_id st) as (_ & _ & -> & _).
    unfold Server.delete_note.
    destruct (emit_event_stores st (Server.EventType_or_None st DELETE)
                "note" None (Some (Server.EventPriority_or st HIGH 2))
                (Server.delete_note_body note_id))
      as (_ & -> & _ & _).
    unfold Server.delete_note_body.
    destruct (Dict.mem note_id (notes_db st)); cbn; lia.
  - rewrite (proj1 (sync_changes_reads_only parse_cursor bus_snapshot
                      last_sync_id include_full_state st)). lia.
Qed.

(** X1: In every state of a run, each task and each note is filed under its own
    id, no id is filed twice, every task id is [task_n] for a number the
    counter has already issued ([1 <= n <= task_counter]), and no task
    numbered above the counter exists. *)
Theorem stores_filed_under_own_id :
  forall st,
    reachable st ->
    (forall k t, Dict.get k (tasks_db st) = Some t -> task_id_of t = k)
    /\ (forall k n, Dict.get k (notes_db st) = Some n -> note_id_of n = k)
    /\ NoDup (Dict.keys (tasks_db st))
    /\ NoDup (Dict.keys (notes_db st))
    /\ (forall k, Dict.mem k (tasks_db st) = true ->
                  exists n, 1 <= n <= task_counter st /\ k = task_key n)
    /\ (forall n, task_counter st < n ->
                  Dict.mem (task_key n) (tasks_db st) = false).
Proof.
  intros st Hreach. destruct (reachable_ok Hreach) as [H1 H2 H3 H4 H5 H6 H7].
  repeat (split; [assumption|]).
  intros n Hn. destruct (Dict.mem (task_key n) (tasks_db st)) eqn:M;
    [|reflexivity].
  destruct (H5 _ M) as (m & Hm & Hkey). apply task_key_inj in Hkey. lia.
Qed.

End StoreProperties.

(** ** Text analysis *)

Module TextFacts.

Lemma length_app (s t : string) :
  String.length (s ++ t) = (String.length s + String.length t)%nat.
Proof. induction s as [|c s IH]; cbn; [reflexivity|now rewrite IH]. Qed.

Lemma is_empty_length (s : string) :
  Text.is_empty s = false -> (1 <= String.length s)%nat.
Proof. destruct s; cbn; [discriminate|lia]. Qed.

(** The words take no more characters than the text read, none is empty. *)
Lemma split_ws_from_sum (s cur : string) :
  (list_sum (map String.length (Text.split_ws_from cur s))
   <= String.length cur + String.length s)%nat.
Proof.
  unfold list_sum.
  revert cur. induction s as [|c s IH]; intros cur; cbn.
  - destruct (Text.is_empty cur); cbn; lia.
  - destruct (Text.is_space c).
    + specialize (IH ""). cbn in IH.
      destruct (Text.is_empty cur); cbn; lia.
    + specialize (IH (cur ++ String c "")). rewrite length_app in IH.
      cbn in IH. lia.
Qed.

Lemma split_ws_from_nonempty (s cur : string) :
  Forall (fun w => (1 <= String.length w)%nat) (Text.split_ws_from cur s).
Proof.
  revert cur. induction s as [|c s IH]; intros cur; cbn.
  - destruct (Text.is_empty cur) eqn:E; constructor;
      [now apply is_empty_length|constructor].
  - destruct (Text.is_space c); [|apply IH].
    destruct (Text.is_empty cur) eqn:E; [apply IH|].
    constructor; [now apply is_empty_length|apply IH].
Qed.

Lemma count_le_sum (ws : list string) :
  Forall (fun w => (1 <= String.length w)%nat) ws ->
  (List.length ws <= list_sum (map String.length ws))%nat.
Proof. unfold list_sum. induction 1; cbn; lia. Qed.

Lemma total_len_sum (ws : list string) :
  Text.total_len ws = Z.of_nat (list_sum (map String.length ws)).
Proof.
  unfold Text.total_len, list_sum.
  induction ws as [|w ws IH]; cbn; [reflexivity|].
  rewrite IH. unfold Text.len. lia.
Qed.

Lemma nodup_shorter (ws : list string) :
  (List.length (nodup string_dec ws) <= List.length ws)%nat.
Proof.
  induction ws as [|w ws IH]; cbn; [lia|].
  destruct (in_dec string_dec w ws); cbn; lia.
Qed.

Lemma split_on_from_pieces (sep : ascii) (s cur : string) :
  List.length (Text.split_on_from sep cur s)
  = S (count_occ ascii_dec (list_ascii_of_string s) sep).
Proof.
  revert cur. induction s as [|c s IH]; intros cur; cbn; [reflexivity|].
  destruct (Ascii.eqb_spec c sep) as [->|Hne].
  - destruct (ascii_dec sep sep); [|congruence]. cbn. now rewrite IH.
  - destruct (ascii_dec c sep); [congruence|]. apply IH.
Qed.

(** X16: For every text: [unique_words <= word_count <= character_count], the
    words together are no longer than the text, and [sentence_count] is at
    most the number of full stops plus one. *)
Theorem text_analyze_counts_bounded :
  forall text,
    0 <= Text.unique_words (Text.text_analyze text)
      <= Text.word_count (Text.text_analyze text)
    /\ Text.word_count (Text.text_analyze text)
       <= Text.total_len (Text.split_ws text)
    /\ Text.total_len (Text.split_ws text)
       <= Text.character_count (Text.text_analyze text)
    /\ 0 <= Text.sentence_count (Text.text_analyze text)
         <= 1 + Z.of_nat (count_occ ascii_dec (list_ascii_of_string text)
                                    "."%char).
Proof.
  intros text. cbn [Text.text_analyze Text.unique_words Text.word_count
                    Text.character_count Text.sentence_count].
  pose proof (nodup_shorter (Text.split_ws text)) as Hu.
  pose proof (count_le_sum (split_ws_from_nonempty text "")) as Hw.
  pose proof (split_ws_from_sum text "") as Hs. cbn in Hs.
  pose proof (filter_length_le
                (fun s => negb (Text.is_empty (Text.strip s)))
                (Text.split_on "."%char text)) as Hf.
  unfold Text.split_on in Hf. rewrite split_on_from_pieces in Hf.
  fold (Text.split_ws text) in Hw, Hs.
  rewrite total_len_sum. unfold Text.len, Text.split_on.
  repeat split; lia.
Qed.

(** X17: For an ASCII text, [average_word_length] never divides by zero: it
    is the int 0 exactly
    when the text has no word, and otherwise the quotient of the words'
    total length by their number, which is at least 1 and at most the total
    length. *)
Theorem text_analyze_average_defined :
  forall text,
    ascii_only text = true ->
    match Text.average_word_length (Text.text_analyze text) with
    | Text.AvgZero => Text.word_count (Text.text_analyze text) = 0
    | Text.AvgQuot total n =>
        n = Text.word_count (Text.text_analyze text)
        /\ total = Text.total_len (Text.split_ws text)
        /\ 1 <= n <= total
    end.
Proof.
  intros text _. cbn [Text.text_analyze Text.average_word_length
                      Text.word_count].
  pose proof (count_le_sum (split_ws_from_nonempty text "")) as Hw.
  fold (Text.split_ws text) in Hw.
  destruct (Text.split_ws text) as [|w ws] eqn:E; [reflexivity|].
  split; [reflexivity|]. split; [reflexivity|].
  rewrite total_len_sum. cbn [List.length] in *. lia.
Qed.

Lemma blank_split_ws (s : string) :
  forallb Text.is_space (list_ascii_of_string s) = true ->
  Text.split_ws_from "" s = [].
Proof.
  induction s as [|c s IH]; cbn; [reflexivity|].
  intros H. apply andb_true_iff in H. destruct H as [Hc Hs].
  rewrite Hc. now apply IH.
Qed.

Lemma blank_split_on (s cur : string) :
  forallb Text.is_space (list_ascii_of_string s) = true ->
  Text.split_on_from "."%char cur s = [cur ++ s].
Proof.
  revert cur. induction s as [|c s IH]; intros cur; cbn.
  - intros _. f_equal. induction cur as [|a cur IHc]; cbn; congruence.
  - intros H. apply andb_true_iff in H. destruct H as [Hc Hs].
    destruct (Ascii.eqb_spec c "."%char) as [->|_]; [discriminate Hc|].
    rewrite (IH _ Hs). f_equal.
    clear. induction cur as [|a cur IHc]; cbn; congruence.
Qed.

Lemma blank_lstrip (s : string) :
  forallb Text.is_space (list_ascii_of_string s) = true ->
  Text.lstrip s = "".
Proof.
  induction s as [|c s IH]; cbn; [reflexivity|].
  intros H. apply andb_true_iff in H. destruct H as [Hc Hs].
  rewrite Hc. now apply IH.
Qed.

(** X18: A text of whitespace only, the empty text included, has no words, no
    sentences and no unique words, and its average word length is the int
    0. *)
Theorem text_analyze_blank :
  forall text,
    forallb Text.is_space (list_ascii_of_string text) = true ->
    Text.word_count (Text.text_analyze text) = 0
    /\ Text.sentence_count (Text.text_analyze text) = 0
    /\ Text.unique_words (Text.text_analyze text) = 0
    /\ Text.average_word_length (Text.text_analyze text) = Text.AvgZero
    /\ Text.character_count (Text.text_analyze text) = Text.len text.
Proof.
  intros text Hblank.
  cbn [Text.text_analyze Text.unique_words Text.word_count
       Text.character_count Text.sentence_count Text.average_word_length].
  unfold Text.split_ws, Text.split_on.
  rewrite (blank_split_ws _ Hblank), (blank_split_on _ "" Hblank).
  cbn [append filter]. unfold Text.strip.
  rewrite (blank_lstrip _ Hblank). now repeat split.
Qed.

Lemma prefix_n_exact (n : nat) (s : string) :
  (n <= String.length s)%nat -> String.length (prefix_n n s) = n.
Proof.
  unfold prefix_n. revert s. induction n as [|n IH]; intros [|c s]; cbn;
    try lia; try reflexivity.
  intros H. rewrite IH; lia.
Qed.

(** X19: For an ASCII text, [preview] is the whole text when it has at most
    100 characters, and
    otherwise its first 100 characters followed by ["..."], 103 characters
    in all. *)
Theorem text_analyze_preview :
  forall text,
    ascii_only text = true ->
    (Text.len text <= 100 ->
     Text.preview (Text.text_analyze text) = text)
    /\ (100 < Text.len text ->
        Text.preview (Text.text_analyze text) = prefix_n 100 text ++ "..."
        /\ String.length (Text.preview (Text.text_analyze text)) = 103%nat)
    /\ (String.length (Text.preview (Text.text_analyze text)) <= 103)%nat.
Proof.
  intros text _. cbn [Text.text_analyze Text.preview]. unfold Text.len.
  destruct (Z.ltb_spec 100 (Z.of_nat (String.length text))) as [Hlt|Hle].
  - assert (Hlen : String.length (prefix_n 100 text ++ "...") = 103%nat).
    { rewrite length_app, prefix_n_exact by lia. reflexivity. }
    split; [lia|]. split; [now split|]. rewrite Hlen. lia.
  - split; [reflexivity|]. split; lia.
Qed.

End TextFacts.

(** ** The store properties on the concrete configuration *)

(** The state after the first note and the first task is a state of a
    run. *)
Lemma unified_one_task_reachable :
  Scenario.reachable Scenario.unified_one_task.
Proof.
  unfold Scenario.reachable, Scenario.unified_one_task,
    Scenario.unified_one_note, Scenario.run.
  do 2 apply Server.reach_call. apply Server.reach_initial.
Defined.

Lemma stores_filed_under_own_id_witness :
  Scenario.reachable Scenario.unified_one_task
  /\ (forall k t,
         Dict.get k (tasks_db Scenario.unified_one_task) = Some t ->
         task_id_of t = k)
  /\ Dict.mem (task_key 2) (tasks_db Scenario.unified_one_task) = false.
Proof.
  split; [exact unified_one_task_reachable|].
  destruct (@stores_filed_under_own_id
              Scenario.capacity Scenario.queue_bound Scenario.parse_cursor
              Scenario.default_priority Scenario.bus_snapshot
              Scenario.unified_one_task unified_one_task_reachable)
    as (Ht & _ & _ & _ & _ & Habove).
  split; [exact Ht|]. apply Habove. cbn. lia.
Defined.

Lemma task_create_adds_fresh_task_witness :
  Scenario.reachable Scenario.unified_one_task
  /\ exists task,
       out_result (Server.task_create "Call Ann" "" "high" "t7" "t8"
                                      Scenario.unified_one_task)
         = task_value task
       /\ task_id_of task = "task_2"
       /\ Dict.mem "task_2" (tasks_db Scenario.unified_one_task) = false.
Proof.
  split; [exact unified_one_task_reachable|].
  destruct (@task_create_adds_fresh_task
              Scenario.capacity Scenario.queue_bound Scenario.parse_cursor
              Scenario.default_priority Scenario.bus_snapshot
              "Call Ann" "" "high" "t7" "t8"
              Scenario.unified_one_task unified_one_task_reachable)
    as (task & Htask & Hres & Hfresh & _).
  exists task. split; [exact Hres|]. rewrite Htask in *.
  split; [reflexivity|exact Hfresh].
Defined.

Lemma task_update_delete_missing_witness :
  Dict.mem "task_9" (tasks_db Scenario.unified_one_task) = false
  /\ out_result (Server.task_update "task_9" (Some "completed") None None
                                    None "t9" Scenario.unified_one_task)
     = VDict [("error", VStr "Task task_9 not found")]
  /\ out_state (Server.task_delete "task_9" Scenario.unified_one_task)
     = Scenario.unified_one_task.
Proof.
  split; [reflexivity|].
  destruct (@task_update_delete_missing "task_9" (Some "completed") None
              None None "t9" Scenario.unified_one_task eq_refl)
    as (Hres & _ & _ & Hst).
  split; [exact Hres|exact Hst].
Defined.

Lemma task_update_keeps_identity_witness :
  exists old new,
    Dict.get "task_1" (tasks_db Scenario.unified_one_task) = Some old
    /\ out_result (Server.task_update "task_1" (Some "completed") (Some "")
                                      None None "t9"
                                      Scenario.unified_one_task)
       = task_value new
    /\ task_id_of new = "task_1"
    /\ task_title new = "Buy milk"
    /\ task_created_at new = "t5"
    /\ task_updated_at new = "t9".
Proof.
  eexists.
  destruct (@task_update_keeps_identity "task_1" (Some "completed") (Some "")
              None None "t9" Scenario.unified_one_task _ eq_refl)
    as (new & Hres & _ & Hid & Hcr & Hup & _ & Htitle & _).
  exists new. split; [reflexivity|]. split; [exact Hres|].
  split; [exact Hid|]. split; [exact (Htitle eq_refl)|].
  split; [exact Hcr|exact Hup].
Defined.

Lemma task_delete_removes_witness :
  Scenario.reachable Scenario.unified_one_task
  /\ Dict.mem "task_1" (tasks_db Scenario.unified_one_task) = true
  /\ Dict.mem "task_1"
       (tasks_db (out_state (Server.task_delete "task_1"
                                                Scenario.unified_one_task)))
     = false
  /\ has_key "error"
       (out_result
          (Server.task_delete "task_1"
             (out_state (Server.task_delete "task_1"
                                            Scenario.unified_one_task))))
     = true.
Proof.
  split; [exact unified_one_task_reachable|]. split; [reflexivity|].
  destruct (@task_delete_removes
              Scenario.capacity Scenario.queue_bound Scenario.parse_cursor
              Scenario.default_priority Scenario.bus_snapshot
              "task_1" Scenario.unified_one_task
              unified_one_task_reachable eq_refl)
    as (_ & Hgone & _ & _ & _ & Hagain & _).
  split; [exact Hgone|exact Hagain].
Defined.

Lemma task_list_after_create_witness :
  Scenario.reachable Scenario.unified_one_task
  /\ exists before created,
       out_result (Server.task_list None Scenario.unified_one_task)
         = VList before
       /\ out_result
            (Server.task_list (Some "pending")
               (out_state (Server.task_create "Call Ann" "" "high" "t7" "t8"
                                              Scenario.unified_one_task)))
          = VList (before ++ [created])
       /\ field "id" created = Some (VStr "task_2").
Proof.
  split; [exact unified_one_task_reachable|].
  destruct (@task_list_after_create
              Scenario.capacity Scenario.queue_bound Scenario.parse_cursor
              Scenario.default_priority Scenario.bus_snapshot
              "Call Ann" "" "high" "t7" "t8"
              Scenario.unified_one_task unified_one_task_reachable)
    as (before & pending_before & created & Hb & Hpb & Hc & _ & Hp & _).
  exists pending_before, created.
  split; [rewrite <- Hpb; reflexivity|]. split; [exact Hp|].
  rewrite <- Hc. reflexivity.
Defined.

Lemma write_note_then_get_note_witness :
  exists note,
    out_result
      (Server.get_note "my-id"
         (out_state (Scenario.write_note "T" "body" "sum" None (Some "my-id")
                                         "t3" "t4" Scenario.unified_one_note)))
    = note_value note
    /\ note_id_of note = "my-id"
    /\ note_content note = "body"
    /\ note_tags note = [].
Proof.
  destruct (@write_note_then_get_note
              Scenario.capacity Scenario.queue_bound Scenario.default_priority
              "T" "body" "sum" None (Some "my-id") "t3" "t4"
              Scenario.unified_one_note)
    as (note & _ & Hget & _ & _ & Hc & Htags & _ & Hid).
  specialize (Hid eq_refl). injection Hid as Hid.
  rewrite <- Hid in Hget.
  exists note. split; [exact Hget|].
  split; [now symmetry|]. split; [exact Hc|exact Htags].
Defined.

Lemma write_note_update_in_place_witness :
  exists old note,
    Dict.get "my-title-1" (notes_db Scenario.unified_one_note) = Some old
    /\ Dict.get "my-title-1"
         (notes_db
            (out_state
               (Scenario.write_note "New Title" "body" "sum" None
                                    (Some "my-title-1") "t3" "t4"
                                    Scenario.unified_one_note)))
       = Some note
    /\ note_created_at note = "t1"
    /\ Dict.keys
         (notes_db
            (out_state
               (Scenario.write_note "New Title" "body" "sum" None
                                    (Some "my-title-1") "t3" "t4"
                                    Scenario.unified_one_note)))
       = ["my-title-1"].
Proof.
  eexists.
  destruct (@write_note_update_in_place
              Scenario.capacity Scenario.queue_bound Scenario.default_priority
              "New Title" "body" "sum" None "my-title-1" "t3" "t4"
              Scenario.unified_one_note _ eq_refl eq_refl)
    as (note & _ & Hget & _ & Hcr & Hkeys & _).
  exists note. split; [reflexivity|]. split; [exact Hget|].
  split; [exact Hcr|exact Hkeys].
Defined.

Lemma write_note_generated_id_witness :
  ascii_only "My Title" = true
  /\ truthy (Some "") = false
  /\ Dict.mem "my-title-2"
       (notes_db
          (out_state (Scenario.write_note "My Title" "b" "s" None (Some "")
                                          "t3" "t4"
                                          Scenario.unified_one_note)))
     = true
  /\ note_counter
       (out_state (Scenario.write_note "My Title" "b" "s" None (Some "")
                                       "t3" "t4" Scenario.unified_one_note))
     = 2
  /\ note_counter
       (out_state (Scenario.write_note "My Title" "b" "s" None (Some "x")
                                       "t3" "t4" Scenario.unified_one_note))
     = 1.
Proof.
  split; [reflexivity|]. split; [reflexivity|].
  destruct (@write_note_generated_id
              Scenario.capacity Scenario.queue_bound Scenario.default_priority
              "My Title" "b" "s" None (Some "") "t3" "t4"
              Scenario.unified_one_note eq_refl)
    as (_ & _ & Hgen & _).
  destruct (Hgen eq_refl) as (Hmem & _ & Hc).
  destruct (@write_note_generated_id
              Scenario.capacity Scenario.queue_bound Scenario.default_priority
              "My Title" "b" "s" None (Some "x") "t3" "t4"
              Scenario.unified_one_note eq_refl)
    as (_ & _ & _ & Hkeep).
  split; [exact Hmem|]. split; [exact Hc|exact (Hkeep eq_refl)].
Defined.

Lemma delete_note_removes_witness :
  Scenario.reachable Scenario.unified_one_task
  /\ Dict.mem "my-title-1" (notes_db Scenario.unified_one_task) = true
  /\ has_key "error"
       (out_result
          (Server.get_note "my-title-1"
             (out_state (Scenario.delete_note "my-title-1"
                                              Scenario.unified_one_task))))
     = true
  /\ has_key "error"
       (out_result
          (Scenario.delete_note "my-title-1"
             (out_state (Scenario.delete_note "my-title-1"
                                              Scenario.unified_one_task))))
     = true.
Proof.
  split; [exact unified_one_task_reachable|]. split; [reflexivity|].
  destruct (@delete_note_removes
              Scenario.capacity Scenario.queue_bound Scenario.parse_cursor
              Scenario.default_priority Scenario.bus_snapshot
              "my-title-1" Scenario.unified_one_task
              unified_one_task_reachable eq_refl)
    as (_ & Hget & _ & _ & Hagain & _).
  split; [|exact Hagain].
  unfold Scenario.delete_note. rewrite Hget. reflexivity.
Defined.

Lemma write_note_then_delete_note_witness :
  Dict.mem "shopping-list-2" (notes_db Scenario.unified_one_task) = false
  /\ notes_db
       (out_state
          (Scenario.delete_note "shopping-list-2"
             (out_state
                (Scenario.write_note "Shopping List" "b" "s" None None
                                     "t3" "t4" Scenario.unified_one_task))))
     = notes_db Scenario.unified_one_task
  /\ note_counter
       (out_state
          (Scenario.delete_note "shopping-list-2"
             (out_state
                (Scenario.write_note "Shopping List" "b" "s" None None
                                     "t3" "t4" Scenario.unified_one_task))))
     = 2.
Proof.
  split; [reflexivity|].
  destruct (@write_note_then_delete_note
              Scenario.capacity Scenario.queue_bound Scenario.default_priority
              "Shopping List" "b" "s" None None "t3" "t4"
              Scenario.unified_one_task "shopping-list-2" eq_refl eq_refl)
    as (_ & _ & Hdb & Hc & _).
  split; [exact Hdb|exact Hc].
Defined.

Lemma list_notes_lists_all_witness :
  Scenario.reachable Scenario.unified_one_task
  /\ exists shown,
       field "notes"
         (out_result (Scenario.list_notes None Scenario.unified_one_task))
         = Some (VList shown)
       /\ map (field "id") shown = [Some (VStr "my-title-1")]
       /\ field "count"
            (out_result (Scenario.list_notes None Scenario.unified_one_task))
          = Some (VInt 1).
Proof.
  split; [exact unified_one_task_reachable|].
  destruct (@list_notes_lists_all
              Scenario.capacity Scenario.queue_bound Scenario.parse_cursor
              Scenario.default_priority Scenario.bus_snapshot
              Scenario.unified_one_task unified_one_task_reachable)
    as (shown & Hres & Hids & _).
  exists shown. unfold Scenario.list_notes. rewrite Hres.
  split; [reflexivity|]. split; [exact Hids|reflexivity].
Defined.

Lemma written_note_listed_by_tag_witness :
  In "todo" ["home"; "todo"]
  /\ exists note shown,
       field "notes"
         (out_result
            (Scenario.list_notes (Some ["todo"])
               (out_state
                  (Scenario.write_note "Shopping List" "b" "s"
                                       (Some ["home"; "todo"]) None "t3" "t4"
                                       Scenario.unified_one_task))))
       = Some (VList shown)
       /\ In (note_overview note) shown
       /\ note_id_of note = "shopping-list-2".
Proof.
  split; [right; left; reflexivity|].
  destruct (@written_note_listed_by_tag
              Scenario.capacity Scenario.queue_bound Scenario.default_priority
              "Shopping List" "b" "s" ["home"; "todo"] None "t3" "t4"
              Scenario.unified_one_task "todo"
              (or_intror (or_introl eq_refl)))
    as (note & shown & Hnote & Hres & Hin).
  exists note, shown. unfold Scenario.list_notes, Scenario.write_note.
  rewrite Hres. split; [reflexivity|]. split; [exact Hin|].
  injection Hnote as Hid _. now symmetry.
Defined.

Lemma get_note_returns_filed_note_witness :
  Scenario.reachable Scenario.unified_one_task
  /\ field "id" (out_result (Server.get_note "my-title-1"
                                             Scenario.unified_one_task))
     = Some (VStr "my-title-1")
  /\ out_result (Server.get_note "nope" Scenario.unified_one_task)
     = VDict [("error", VStr "Note with ID 'nope' not found")].
Proof.
  split; [exact unified_one_task_reachable|].
  destruct (@get_note_returns_filed_note
              Scenario.capacity Scenario.queue_bound Scenario.parse_cursor
              Scenario.default_priority Scenario.bus_snapshot
              "my-title-1" Scenario.unified_one_task
              unified_one_task_reachable)
    as (Hfound & _).
  destruct (Hfound _ eq_refl) as (_ & Hid & _).
  destruct (@get_note_returns_filed_note
              Scenario.capacity Scenario.queue_bound Scenario.parse_cursor
              Scenario.default_priority Scenario.bus_snapshot
              "nope" Scenario.unified_one_task
              unified_one_task_reachable)
    as (_ & Hmissing & _).
  split; [exact Hid|exact (Hmissing eq_refl)].
Defined.

Lemma text_analyze_blank_witness :
  forallb Text.is_space (list_ascii_of_string "   ") = true
  /\ Text.word_count (Text.text_analyze "   ") = 0
  /\ Text.average_word_length (Text.text_analyze "   ") = Text.AvgZero
  /\ Text.character_count (Text.text_analyze "   ") = 3.
Proof.
  split; [reflexivity|].
  destruct (@TextFacts.text_analyze_blank "   " eq_refl)
    as (Hw & _ & _ & Ha & Hc).
  split; [exact Hw|]. split; [exact Ha|exact Hc].
Defined.

Lemma text_analyze_preview_witness :
  ascii_only "short text" = true
  /\ Text.len "short text" <= 100
  /\ Text.preview (Text.text_analyze "short text") = "short text".
Proof.
  split; [reflexivity|]. split; [cbn; lia|].
  destruct (@TextFacts.text_analyze_preview "short text" eq_refl)
    as (Hshort & _).
  apply Hshort. cbn. lia.
Defined.

Lemma text_analyze_average_defined_witness :
  ascii_only "to be or not to be" = true
  /\ Text.average_word_length (Text.text_analyze "to be or not to be")
     = Text.AvgQuot 13 6
  /\ Text.word_count (Text.text_analyze "to be or not to be") = 6.
Proof.
  split; [reflexivity|].
  pose proof (@TextFacts.text_analyze_average_defined "to be or not to be"
                eq_refl) as H.
  destruct (Text.average_word_length
              (Text.text_analyze "to be or not to be")) as [|total n] eqn:E;
    [discriminate E|].
  destruct H as (Hn & _). injection E as <- <-.
  split; [reflexivity|]. now symmetry.
Defined.
